(** * cljsbuild: dependency fingerprint, classpath cache and registry lookup

    A shallow embedding of the parts of [src/cljsbuild.js] that resolve
    dependency versions ([findLatestMavenRelease], [findLatestClojarsRelease],
    [Config._fetchLatestVersion], [Config._findPackageVersions]) and that cache
    the Maven classpath ([Maven._hashDepdendencies], [Maven.createPomXml],
    [Maven.installDependencies], [Maven.getClasspath], [removeFile],
    [readFile], [sh]), of the settings read from and written to package.json
    ([Config._getDefaults], [Config._loadPackageJson], [Config._loadConfig],
    [Config._updatePackageJson], [Config.getConfig], [Config.initConfig],
    [Config.updateDependencies]) and of the step that runs the build script
    ([isRlwrapAvailable], [ClojureScript._runBuildClj]).

    Conventions of the embedding.
    - JavaScript strings are byte strings ([string]); this is exact for the
      ASCII text of package names, version numbers and paths.  [x < y] on
      strings is the lexicographic order on code units, [String.ltb].
    - A JavaScript object used as a map is the list of its own properties in
      the order [Object.keys] enumerates them, which for keys that are not
      array indices is the order of insertion.  No key of an object is the
      name of a member of [Object.prototype], so that the read of a property
      under a key of some object is the read of an own property; the key
      given to [getConfig] is any string, and the read there goes through
      [Object.prototype].
    - The runtime is Node.js as it was when the program was written (it needs
      rest parameters, so Node 6, and it calls [fs.unlink] without a callback,
      which Node 10 and later reject).  Parts of the runtime whose behaviour
      the program cannot fix are parameters: [Array.prototype.sort], the
      external command run by [child_process.execSync], the answers of the
      two registries and the order in which the answers to concurrent
      requests come.
    - package.json is an object and is held as parsed: [JSON.parse] and
      [JSON.stringify] are inverse to each other on JSON, and a write leaves
      what a later read parses.  Numbers are integers. *)

From Stdlib Require Import ZArith List Ascii String Permutation Lia Bool.
From stdpp Require Import gmap strings.
Import ListNotations.

Local Open Scope string_scope.
Local Open Scope Z_scope.

(** ** JavaScript values used by the program *)

Module Js.

(** Truthiness of a string: only the empty string is falsy. *)
Definition truthy (s : string) : bool :=
  match s with
  | EmptyString => false
  | String _ _ => true
  end.

(** [x < y] and [x > y] on strings. *)
Definition lt (x y : string) : bool := String.ltb x y.
Definition gt (x y : string) : bool := String.ltb y x.

(** [list.join('')] *)
Definition join_empty (l : list string) : string :=
  fold_right String.append "" l.

(** [list.join('\n')]: the elements separated by a line feed. *)
Fixpoint join_lines (l : list string) : string :=
  match l with
  | [] => ""
  | [s] => s
  | s :: rest => s +:+ String "010"%char (join_lines rest)
  end.

(** [s.split(sep)] for a one-character separator: the pieces between the
    separators, [""] giving the single piece [""]. *)
Fixpoint split (sep : ascii) (s : string) : list string :=
  match s with
  | EmptyString => [""]
  | String c rest =>
      if Ascii.eqb c sep then "" :: split sep rest
      else match split sep rest with
           | piece :: pieces => String c piece :: pieces
           | [] => [String c ""]
           end
  end.

(** [a[i] || d] for an array of strings: the default when the index is out
    of range (undefined) or the element is the empty string. *)
Definition nth_or (i : nat) (a : list string) (d : string) : string :=
  match nth_error a i with
  | Some s => if truthy s then s else d
  | None => d
  end.

(** An object with string values, as the list of its own properties in
    [Object.keys] order. *)
Definition object := list (string * string).

Definition keys (o : object) : list string := map fst o.

(** [o[k]] *)
Fixpoint get (o : object) (k : string) : option string :=
  match o with
  | [] => None
  | (k', v) :: rest => if String.eqb k' k then Some v else get rest k
  end.

(** [o[k] = v]: an existing property keeps its place, a new one goes last. *)
Fixpoint set (o : object) (k v : string) : object :=
  match o with
  | [] => [(k, v)]
  | (k', v') :: rest =>
      if String.eqb k' k then (k', v) :: rest else (k', v') :: set rest k v
  end.

(** [JSON.stringify(s)] for a string: the text between double quotes, with
    the double quote and the backslash behind a backslash, the control
    characters as their escapes, in lower-case hexadecimal where they have no
    letter. *)
Definition hexDigit (n : N) : ascii :=
  nth (N.to_nat n) (list_ascii_of_string "0123456789abcdef") "0"%char.

Definition escape (c : ascii) : string :=
  let n := N_of_ascii c in
  let backslash := "092"%char in
  if (n =? 34)%N then String backslash (String "034" "")
  else if (n =? 92)%N then String backslash (String backslash "")
  else if (n =? 8)%N then String backslash "b"
  else if (n =? 12)%N then String backslash "f"
  else if (n =? 10)%N then String backslash "n"
  else if (n =? 13)%N then String backslash "r"
  else if (n =? 9)%N then String backslash "t"
  else if (n <? 32)%N
       then String backslash
              ("u00" +:+ String (hexDigit (n / 16)) (String (hexDigit (n mod 16)) ""))
       else String c "".

Definition stringify (s : string) : string :=
  String "034" (join_empty (map escape (list_ascii_of_string s)))
  +:+ String "034" "".

End Js.

(** ** SHA-1 (FIPS 180-4), the digest behind [crypto.createHash('sha1')] *)

Module Sha1.

Definition w32 (x : Z) : Z := x mod 2 ^ 32.

Definition rotl (n x : Z) : Z :=
  w32 (Z.lor (Z.shiftl x n) (Z.shiftr x (32 - n))).

Definition bytes_of_string (s : string) : list Z :=
  map (fun c => Z.of_N (N_of_ascii c)) (list_ascii_of_string s).

(** Big-endian bytes of a 64-bit length. *)
Definition be64 (x : Z) : list Z :=
  map (fun i => (Z.shiftr x (8 * i)) mod 256) [7; 6; 5; 4; 3; 2; 1; 0].

(** The message, a 1 bit, zeros up to 56 modulo 64, and the bit length. *)
Definition pad (msg : list Z) : list Z :=
  let l := Z.of_nat (length msg) in
  (msg ++ [128] ++ repeat 0 (Z.to_nat ((55 - l) mod 64)) ++ be64 (8 * l))%list.

Fixpoint words (bytes : list Z) : list Z :=
  match bytes with
  | b0 :: b1 :: b2 :: b3 :: rest =>
      (((b0 * 256 + b1) * 256 + b2) * 256 + b3) :: words rest
  | _ => []
  end.

(** The message schedule: [n] more words after the ones in [w]. *)
Fixpoint schedule (n : nat) (w : list Z) : list Z :=
  match n with
  | O => w
  | S n' =>
      let t := length w in
      let at_ i := nth (t - i) w 0 in
      schedule n'
        (w ++ [rotl 1 (Z.lxor (Z.lxor (Z.lxor (at_ 3%nat) (at_ 8%nat))
                                      (at_ 14%nat)) (at_ 16%nat))])
  end.

Definition f (t : nat) (b c d : Z) : Z :=
  if (t <? 20)%nat then Z.lor (Z.land b c) (Z.land (Z.lxor b (2 ^ 32 - 1)) d)
  else if (t <? 40)%nat then Z.lxor (Z.lxor b c) d
  else if (t <? 60)%nat
       then Z.lor (Z.lor (Z.land b c) (Z.land b d)) (Z.land c d)
  else Z.lxor (Z.lxor b c) d.

Definition K (t : nat) : Z :=
  if (t <? 20)%nat then 0x5A827999
  else if (t <? 40)%nat then 0x6ED9EBA1
  else if (t <? 60)%nat then 0x8F1BBCDC
  else 0xCA62C1D6.

Definition state := (Z * Z * Z * Z * Z)%type.

Definition round (s : state) (tw : nat * Z) : state :=
  let '(a, b, c, d, e) := s in
  let '(t, w) := tw in
  (w32 (rotl 5 a + f t b c d + e + K t + w), a, rotl 30 b, c, d).

Definition compress (h : state) (block : list Z) : state :=
  let w := schedule 64 block in
  let '(a, b, c, d, e) := fold_left round (combine (seq 0 80) w) h in
  let '(h0, h1, h2, h3, h4) := h in
  (w32 (h0 + a), w32 (h1 + b), w32 (h2 + c), w32 (h3 + d), w32 (h4 + e)).

(** The blocks of 16 words, at most [n] of them. *)
Fixpoint blocks (n : nat) (ws : list Z) : list (list Z) :=
  match n, ws with
  | S n', _ :: _ => firstn 16 ws :: blocks n' (skipn 16 ws)
  | _, _ => []
  end.

Definition initial : state :=
  (0x67452301, 0xEFCDAB89, 0x98BADCFE, 0x10325476, 0xC3D2E1F0).

Definition digest (s : string) : state :=
  let ws := words (pad (bytes_of_string s)) in
  fold_left compress (blocks (length ws) ws) initial.

Definition hex_digit (x : Z) : ascii :=
  nth (Z.to_nat x)
    ["0"; "1"; "2"; "3"; "4"; "5"; "6"; "7";
     "8"; "9"; "a"; "b"; "c"; "d"; "e"; "f"]%char "0"%char.

(** The eight lower-case hexadecimal digits of a 32-bit word, followed by
    [rest]. *)
Definition hex_word (x : Z) (rest : string) : string :=
  String (hex_digit (Z.shiftr x 28 mod 16))
 (String (hex_digit (Z.shiftr x 24 mod 16))
 (String (hex_digit (Z.shiftr x 20 mod 16))
 (String (hex_digit (Z.shiftr x 16 mod 16))
 (String (hex_digit (Z.shiftr x 12 mod 16))
 (String (hex_digit (Z.shiftr x 8 mod 16))
 (String (hex_digit (Z.shiftr x 4 mod 16))
 (String (hex_digit (x mod 16)) rest))))))).

(** [createHash('sha1').update(s).digest().toString('hex')] *)
Definition hex (s : string) : string :=
  let '(h0, h1, h2, h3, h4) := digest s in
  hex_word h0 (hex_word h1 (hex_word h2 (hex_word h3 (hex_word h4 "")))).

End Sha1.

(** ** Regular expressions, for the release pattern *)

Module Regex.

Inductive re : Type :=
| Void                        (* matches nothing *)
| Eps                         (* the empty string *)
| Chr (c : ascii)             (* one given character *)
| Class (lo hi : ascii)       (* a character range [lo-hi] *)
| Seq (r1 r2 : re)
| Alt (r1 r2 : re)
| Star (r : re).

Definition Plus (r : re) : re := Seq r (Star r).   (* r+ *)
Definition Opt (r : re) : re := Alt r Eps.         (* (r)? *)

Definition in_class (lo hi c : ascii) : bool :=
  (N_of_ascii lo <=? N_of_ascii c)%N && (N_of_ascii c <=? N_of_ascii hi)%N.

Fixpoint nullable (r : re) : bool :=
  match r with
  | Void => false
  | Eps => true
  | Chr _ => false
  | Class _ _ => false
  | Seq r1 r2 => nullable r1 && nullable r2
  | Alt r1 r2 => nullable r1 || nullable r2
  | Star _ => true
  end.

(** What remains to be matched after reading [c]. *)
Fixpoint deriv (c : ascii) (r : re) : re :=
  match r with
  | Void => Void
  | Eps => Void
  | Chr c' => if Ascii.eqb c' c then Eps else Void
  | Class lo hi => if in_class lo hi c then Eps else Void
  | Seq r1 r2 =>
      if nullable r1 then Alt (Seq (deriv c r1) r2) (deriv c r2)
      else Seq (deriv c r1) r2
  | Alt r1 r2 => Alt (deriv c r1) (deriv c r2)
  | Star r1 => Seq (deriv c r1) (Star r1)
  end.

(** [/^r$/] matches the string: the whole string is in the language. *)
Fixpoint matches (r : re) (s : string) : bool :=
  match s with
  | EmptyString => nullable r
  | String c rest => matches (deriv c r) rest
  end.

(** The language of a regular expression. *)
Inductive lang : re -> string -> Prop :=
| lang_eps : lang Eps ""
| lang_chr c : lang (Chr c) (String c "")
| lang_class lo hi c : in_class lo hi c = true -> lang (Class lo hi) (String c "")
| lang_seq r1 r2 s1 s2 : lang r1 s1 -> lang r2 s2 -> lang (Seq r1 r2) (s1 +:+ s2)
| lang_alt_l r1 r2 s : lang r1 s -> lang (Alt r1 r2) s
| lang_alt_r r1 r2 s : lang r2 s -> lang (Alt r1 r2) s
| lang_star_nil r : lang (Star r) ""
| lang_star_cons r s1 s2 :
    lang r s1 -> lang (Star r) s2 -> lang (Star r) (s1 +:+ s2).

End Regex.

(** ** The versions a registry lists *)

(** [/^[0-9]+\.[0-9]+\.[0-9]+(-[0-9]+)?$/] *)
Definition releaseRegex : Regex.re :=
  let digits := Regex.Plus (Regex.Class "0" "9") in
  Regex.Seq digits
    (Regex.Seq (Regex.Chr ".")
       (Regex.Seq digits
          (Regex.Seq (Regex.Chr ".")
             (Regex.Seq digits
                (Regex.Opt (Regex.Seq (Regex.Chr "-") digits)))))).

(** [version.match(releaseRegex)] is an array when the pattern matches and
    null when it does not; only its truthiness is used. *)
Definition matchesRelease (version : string) : bool :=
  Regex.matches releaseRegex version.

(** The release pattern in the words of the specification: MAJOR.MINOR.PATCH,
    optionally followed by -BUILD, every component a non-empty run of decimal
    digits. *)
Definition numeric (s : string) : Prop :=
  s <> "" /\ Forall (fun c => Regex.in_class "0" "9" c = true) (list_ascii_of_string s).

Definition strictRelease (s : string) : Prop :=
  exists major minor patch,
    numeric major /\ numeric minor /\ numeric patch /\
    (s = major +:+ "." +:+ minor +:+ "." +:+ patch \/
     exists build,
       numeric build /\
       s = major +:+ "." +:+ minor +:+ "." +:+ patch +:+ "-" +:+ build).

(** One document of the Maven Central answer ([data.response.docs]) and one
    result of the Clojars answer ([data.results]). *)
Record MavenDoc : Type := { v : string }.

Record ClojarsItem : Type :=
  { group_name : string; jar_name : string; version : string }.

(** What happens while versions are looked up. *)
Inductive event : Type :=
| QueryMaven (groupId artifactId : string)
| QueryClojars (groupId artifactId : string)
| Log (message : string).

(** A settled promise: its value, what was done at once when the promise
    was made, and what was done later, when answers had come; each in
    order. *)
Definition promise (A : Type) : Type := (A * (list event * list event))%type.

Definition resolved {A : Type} (a : A) : promise A := (a, ([], [])).

(** [httpGetJson]: [new Promise] runs its executor at once, so the request
    is sent when the promise is made; the value is the answer. *)
Definition httpGetJson {A : Type} (request : event) (answer : A) : promise A :=
  (answer, ([request], [])).

(** [p.then(k)]: [k] runs after [p] has settled, so all that [k] does is
    done later. *)
Definition then_ {A B : Type} (p : promise A) (k : A -> promise B) : promise B :=
  let '(a, (atOnce1, later1)) := p in
  let '(b, (atOnce2, later2)) := k a in
  (b, (atOnce1, (later1 ++ atOnce2 ++ later2)%list)).

(** All that a promise did, in order. *)
Definition events {A : Type} (p : promise A) : list event :=
  (fst (snd p) ++ snd (snd p))%list.

(** [Promise.all]: the values in the order of the promises.  The promises
    are made one after the other, so what they do at once is done in their
    order.  What they do later is done as the answers come: [arrival] is the
    order in which that interleaves, which the program does not fix. *)
Definition all {A : Type} (arrival : list (list event) -> list event)
           (ps : list (promise A)) : promise (list A) :=
  (map fst ps,
   (flat_map (fun p => fst (snd p)) ps, arrival (map (fun p => snd (snd p)) ps))).

(** [(a[0] || {}).version]: absent when there is no first element. *)
Definition first_version {A : Type} (field : A -> string) (a : list A)
  : option string :=
  match a with
  | [] => None
  | x :: _ => Some (field x)
  end.

(** An optional version is truthy when it is present and not empty. *)
Definition truthy_version (o : option string) : bool :=
  match o with
  | Some s => Js.truthy s
  | None => false
  end.

(** The body of the [forEach] of [_findPackageVersions]: a fetched
    [{name, version}] becomes a property, undefined is skipped. *)
Definition collect (dependencies : Js.object) (d : option (string * string))
  : Js.object :=
  match d with
  | Some (name, version) => Js.set dependencies name version
  | None => dependencies
  end.

Section Registries.

(** The documents Maven Central returns for the query on a group and an
    artifact, and the results Clojars returns for its text search. *)
Variable mavenDocs : string -> string -> list MavenDoc.
Variable clojarsResults : string -> string -> list ClojarsItem.

(** The order in which the answers to the requests of a batch come, as the
    interleaving of what each lookup does after its first request. *)
Variable arrival : list (list event) -> list event.

Definition findLatestClojarsRelease (groupId artifactId : string)
           (releasesOnly : bool) : promise (option string) :=
  then_ (httpGetJson (QueryClojars groupId artifactId)
                      (clojarsResults groupId artifactId))
    (fun results =>
       let release :=
         List.filter (fun item =>
                   String.eqb (group_name item) groupId
                   && String.eqb (jar_name item) artifactId)
           (List.filter (fun item =>
                      if releasesOnly then matchesRelease (version item)
                      else true)
              results) in
       resolved (first_version version release)).

Definition findLatestMavenRelease (groupId artifactId : string)
           (releasesOnly : bool) : promise (option string) :=
  then_ (httpGetJson (QueryMaven groupId artifactId) (mavenDocs groupId artifactId))
    (fun docs =>
       if releasesOnly
       then resolved
              (first_version v (List.filter (fun item => matchesRelease (v item)) docs))
       else resolved (first_version v docs)).

(** The [{name, version}] object, or undefined. *)
Definition _fetchLatestVersion (name : string) (releasesOnly : bool)
  : promise (option (string * string)) :=
  let groupId := nth 0 (Js.split "/" name) "" in
  let artifactId := Js.nth_or 1 (Js.split "/" name) groupId in
  then_ (findLatestMavenRelease groupId artifactId releasesOnly)
    (fun version =>
       if truthy_version version
       then resolved (option_map (fun ver => (name, ver)) version)
       else
         then_ (findLatestClojarsRelease groupId artifactId releasesOnly)
           (fun version =>
              if truthy_version version
              then resolved (option_map (fun ver => (name, ver)) version)
              else (None,
                    ([Log ("no version found for package " +:+ Js.stringify name)],
                     [])))).

Definition _findPackageVersions (packages : list string) (releasesOnly : bool)
  : promise Js.object :=
  then_ (all arrival (map (fun name => _fetchLatestVersion name releasesOnly) packages))
    (fun depsWithVersions =>
       resolved (fold_left collect depsWithVersions [])).

End Registries.

(** ** The runtime: sorting, files, external commands *)

(** An element of [dependencyList]: the pair [[name, dependencies[name]]]. *)
Definition entry : Type := (string * string)%type.

(** [Array.prototype.sort] on a list of entries, given the comparator.
    ECMAScript fixes the result only for a consistent comparator, so the
    function is a parameter of the program. *)
Definition sorter : Type := (entry -> entry -> Z) -> list entry -> list entry.

(** What every implementation does whatever the comparator: it rearranges
    the elements, and it looks at them only through the comparator. *)
Record ComparisonSort (sort : sorter) : Prop :=
  { sort_permutes : forall cmp l, Permutation (sort cmp l) l;
    sort_by_comparator :
      forall cmp (g : entry -> entry) l,
        (forall a b, cmp (g a) (g b) = cmp a b) ->
        sort cmp (map g l) = map g (sort cmp l) }.

(** The sort of V8 up to version 6 (Node.js up to 10) for arrays of at most
    ten elements, [InsertionSort] of src/js/array.js: each element in turn
    moves left past the elements [tmp] with [comparefn(tmp, element) > 0].
    [insertLeft] works on the part already sorted, nearest element first. *)
Fixpoint insertLeft (comparefn : entry -> entry -> Z) (element : entry)
         (before : list entry) : list entry :=
  match before with
  | [] => [element]
  | tmp :: rest =>
      if 0 <? comparefn tmp element
      then tmp :: insertLeft comparefn element rest
      else element :: tmp :: rest
  end.

Definition InsertionSort : sorter :=
  fun comparefn a =>
    rev (fold_left (fun before element => insertLeft comparefn element before) a []).

Module Node.

(** The files (path to content), the removals requested with the
    asynchronous [fs.unlink], which the runtime carries out later, and the
    commands run so far. *)
Record world : Type :=
  World { files : gmap string string;
          unlinks : list string;
          commands : list string }.

Inductive error : Type :=
| ENOENT (path : string)
| ExecFailed (command : string).

Inductive outcome (A : Type) : Type :=
| Returned (a : A)
| Thrown (e : error).
Arguments Returned {A} a.
Arguments Thrown {A} e.

Definition M (A : Type) : Type := world -> outcome A * world.

Definition ret {A : Type} (a : A) : M A := fun w => (Returned a, w).

Definition bind {A B : Type} (m : M A) (k : A -> M B) : M B :=
  fun w =>
    match m w with
    | (Returned a, w') => k a w'
    | (Thrown e, w') => (Thrown e, w')
    end.

(** [try { body } catch (e) { handler(e) }] *)
Definition try_catch {A : Type} (body : M A) (handler : error -> M A) : M A :=
  fun w =>
    match body w with
    | (Returned a, w') => (Returned a, w')
    | (Thrown e, w') => handler e w'
    end.

(** [try { body } finally { cleanup }]: the outcome of the body, unless
    the cleanup throws. *)
Definition try_finally {A : Type} (body : M A) (cleanup : M unit) : M A :=
  fun w =>
    match body w with
    | (r, w') =>
        match cleanup w' with
        | (Returned _, w'') => (r, w'')
        | (Thrown e, w'') => (Thrown e, w'')
        end
    end.

Definition readFileSync (path : string) : M string :=
  fun w =>
    match files w !! path with
    | Some content => (Returned content, w)
    | None => (Thrown (ENOENT path), w)
    end.

Definition writeFileSync (path data : string) : M unit :=
  fun w => (Returned tt, World (<[path := data]> (files w)) (unlinks w) (commands w)).

(** [fs.unlink(path)] with no callback: the removal is queued and the call
    returns at once. *)
Definition unlink (path : string) : M unit :=
  fun w => (Returned tt, World (files w) (unlinks w ++ [path]) (commands w)).

(** The external program behind [child_process.execSync]: from the command
    line and the files it finds, whether it exits with status 0 and the
    files it leaves. *)
Definition program : Type := string -> gmap string string -> bool * gmap string string.

Definition execSync (run : program) (command : string) : M unit :=
  fun w =>
    let '(ok, fs) := run command (files w) in
    let w' := World fs (unlinks w) (commands w ++ [command]) in
    if ok then (Returned tt, w') else (Thrown (ExecFailed command), w').

(** [path.resolve(path.join(dir, name))], for a directory and a file name
    that need no normalisation, relative to the working directory. *)
Definition resolve_join (dir name : string) : string := dir +:+ "/" +:+ name.

End Node.

Import Node.

Notation "'let!' x ':=' m 'in' k" := (bind m (fun x => k))
  (at level 10, x name, k at level 200).
Notation "m ;;; k" := (bind m (fun _ => k))
  (at level 100, right associativity).

(** ** utils *)

Definition sh (run : program) (command : string) : M unit := execSync run command.

Definition removeFile (fileName : string) : M unit :=
  try_catch (unlink fileName) (fun e => ret tt).

(** read a string from fileName, return '' if fileName does not exist *)
Definition readFile (fileName : string) : M string :=
  try_catch (readFileSync fileName)
    (fun e =>
       match e with
       | ENOENT _ => ret ""
       | _ => fun w => (Thrown e, w)
       end).

(** ** class Maven *)

(** The configuration the class reads with [getConfig]: both values are
    defined ([getConfig] ends the process otherwise). *)
Record Config : Type := { tempdir : string; dependencies : Js.object }.

(** A template literal prints a missing property as [undefined]. *)
Definition template (o : option string) : string :=
  match o with
  | Some s => s
  | None => "undefined"
  end.

(** The comparator of [dependencyList.sort]. *)
Definition compareNames (a b : entry) : Z :=
  let x := fst a in
  let y := fst b in
  if Js.lt x y then -1
  else if Js.gt y x then 1
  else 0.

Section Maven.

Variable sort : sorter.
Variable run : program.
Variable _config : Config.

Definition dependencyList : list entry :=
  map (fun name => (name, template (Js.get (dependencies _config) name)))
      (Js.keys (dependencies _config)).

(** deterministically serialize the dependencies *)
Definition dependencyString : string :=
  Js.join_empty (map (fun d => fst d +:+ snd d) (sort compareNames dependencyList)).

(** return a hash over the declared depdendencies of a project *)
Definition _hashDepdendencies : string := Sha1.hex dependencyString.

Definition _getPomXmlPath : string := resolve_join (tempdir _config) "pom.xml".

Definition pomXml : string :=
  Js.join_lines
    (["<project>";
      "<modelVersion>4.0.0</modelVersion>";
      "<groupId>org.clojars.YOUR-CLOJARS-USERNAME-HERE</groupId>";
      "<artifactId>JAR-NAME-HERE</artifactId>";
      "<version>JAR-VERSION-HERE</version>";
      "<name>JAR-NAME-HERE</name>";
      "<description>JAR-DESCRIPTION-HERE</description>";
      "<licenses>";
      "  <license>";
      "    <name>Eclipse Public License 1.0</name>";
      "    <url>http://opensource.org/licenses/eclipse-1.0.php</url>";
      "    <distribution>repo</distribution>";
      "  </license>";
      "</licenses>";
      "<repositories>";
      "  <repository>";
      "    <id>clojars</id>";
      "    <url>http://clojars.org/repo/</url>";
      "  </repository>";
      "</repositories>";
      "<dependencies>"]
     ++ flat_map
          (fun k =>
             let res := Js.split "/" k in
             let groupId := nth 0 res "" in
             let artifactId := Js.nth_or 1 res groupId in
             let version := template (Js.get (dependencies _config) k) in
             ["<dependency>";
              "  <groupId>" +:+ groupId +:+ "</groupId>";
              "  <artifactId>" +:+ artifactId +:+ "</artifactId>";
              "  <version>" +:+ version +:+ "</version>";
              "</dependency>"])
          (Js.keys (dependencies _config))
     ++ ["</dependencies>"; "</project>"; ""])%list.

Definition createPomXml : M unit := writeFileSync _getPomXmlPath pomXml.

Definition installDependencies : M unit :=
  try_finally
    (createPomXml ;;;
     sh run ("mvn install -f " +:+ _getPomXmlPath))
    (removeFile _getPomXmlPath).

Definition classpathValueFile : string :=
  resolve_join (tempdir _config) "classpath.value".

Definition classpathHashFile : string :=
  resolve_join (tempdir _config) "classpath.hash".

Definition classpathCommand : string :=
  "mvn dependency:build-classpath -f=" +:+ _getPomXmlPath
  +:+ " -Dmdep.outputFile=" +:+ classpathValueFile.

(** The [try ... finally] statement of [getClasspath]: compute the
    classpath, cache the hash, return what the command wrote. *)
Definition recomputeClasspath (currentDependencyHash : string) : M string :=
  try_finally
    (createPomXml ;;;
     sh run classpathCommand ;;;
     writeFileSync classpathHashFile currentDependencyHash ;;;
     readFileSync classpathValueFile)
    (removeFile _getPomXmlPath).

(** compute, cache and return the projects classpath *)
Definition getClasspath : M string :=
  let! lastDependencyHash := readFile classpathHashFile in
  let currentDependencyHash := _hashDepdendencies in
  let! cachedClasspath := readFile classpathValueFile in
  (* use value from cache if not stale and the cache exists *)
  if String.eqb lastDependencyHash currentDependencyHash && Js.truthy cachedClasspath
  then ret cachedClasspath
  else recomputeClasspath currentDependencyHash.

End Maven.

(** ** Notions used to state the properties *)

(** The same configuration with another dependency set. *)
Definition with_dependencies (c : Config) (o : Js.object) : Config :=
  {| tempdir := tempdir c; dependencies := o |}.

(** The object without the property [k]. *)
Definition without (k : string) (o : Js.object) : Js.object :=
  List.filter (fun kv => negb (String.eqb (fst kv) k)) o.

(** One change of a dependency set: another version for a coordinate, a
    coordinate more, a coordinate less.  A coordinate has a name. *)
Inductive single_change (o : Js.object) : Js.object -> Prop :=
| change_version k v v' :
    Js.get o k = Some v -> v' <> v -> single_change o (Js.set o k v')
| add_coordinate k v :
    Js.get o k = None -> k <> "" -> single_change o (Js.set o k v)
| remove_coordinate k v :
    Js.get o k = Some v -> k <> "" -> single_change o (without k o).

(** Two different messages with the same SHA-1 digest. *)
Definition sha1_collision (s1 s2 : string) : Prop :=
  s1 <> s2 /\ Sha1.hex s1 = Sha1.hex s2.

(** The release filter of both registries. *)
Definition accepts (releasesOnly : bool) (version : string) : bool :=
  if releasesOnly then matchesRelease version else true.

(** The results of Clojars that are the coordinate itself. *)
Definition sameCoordinate (groupId artifactId : string) (item : ClojarsItem) : bool :=
  String.eqb (group_name item) groupId && String.eqb (jar_name item) artifactId.

(** Whether [getClasspath] takes the value from the cache in this world. *)
Definition cacheHit (sort : sorter) (c : Config) (w : world) : bool :=
  String.eqb (default "" (files w !! classpathHashFile c)) (_hashDepdendencies sort c)
  && Js.truthy (default "" (files w !! classpathValueFile c)).

(** What [Js.set] does to the pair of a property that is there: the value is
    rewritten in place. *)
Definition revalue (k v' : string) (kv : entry) : entry :=
  if String.eqb (fst kv) k then (fst kv, v') else kv.

(** The pairs written one after the other, as [dependencyString] does. *)
Definition serialize (l : list entry) : string :=
  Js.join_empty (map (fun d => fst d +:+ snd d) l).

(** ** Inputs of the examples *)

(** The same two dependencies, written in package.json in two orders. *)
Definition weaselFirst : Config :=
  {| tempdir := ".cljsbuild";
     dependencies := [("weasel", "0.7.0"); ("org.clojure/clojure", "1.8.0")] |}.

Definition clojureFirst : Config :=
  {| tempdir := ".cljsbuild";
     dependencies := [("org.clojure/clojure", "1.8.0"); ("weasel", "0.7.0")] |}.

(** Maven as it may behave: writing the classpath and succeeding, failing
    without touching a file, failing after it has written the file. *)
Definition mavenWrites (classpath : string) : program :=
  fun command fs => (true, <[".cljsbuild/classpath.value" := classpath]> fs).

Definition mavenFails : program := fun command fs => (false, fs).

Definition mavenWritesThenFails (classpath : string) : program :=
  fun command fs => (false, <[".cljsbuild/classpath.value" := classpath]> fs).

(** A project directory without a cache, and one with both cache files. *)
Definition emptyWorld : world := World ∅ [] [].

Definition cachedWorld (hash classpath : string) : world :=
  World (<[".cljsbuild/classpath.hash" := hash]>
           (<[".cljsbuild/classpath.value" := classpath]> ∅)) [] [].

(** The group and the artifact a package name stands for. *)
Definition groupOf (name : string) : string := nth 0 (Js.split "/" name) "".

Definition artifactOf (name : string) : string :=
  Js.nth_or 1 (Js.split "/" name) (groupOf name).

(** The version each registry offers for a coordinate: the first of its
    candidates that passes the release filter.  The candidates of Maven
    Central are the documents of its answer, those of Clojars the results
    that are the coordinate itself. *)
Definition mavenVersion (mavenDocs : string -> string -> list MavenDoc)
           (groupId artifactId : string) (releasesOnly : bool) : option string :=
  hd_error
    (map v (List.filter (fun doc => accepts releasesOnly (v doc))
                        (mavenDocs groupId artifactId))).

Definition clojarsVersion (clojarsResults : string -> string -> list ClojarsItem)
           (groupId artifactId : string) (releasesOnly : bool) : option string :=
  hd_error
    (map version
       (List.filter (fun item => accepts releasesOnly (version item))
          (List.filter (sameCoordinate groupId artifactId)
                       (clojarsResults groupId artifactId)))).

(** A version that is there and is not empty. *)
Definition nonEmpty (o : option string) : option string :=
  match o with
  | Some EmptyString => None
  | other => other
  end.

(** The version the registries have for a package name: that of Maven
    Central, and that of Clojars when Maven Central has none. *)
Definition registryVersion (mavenDocs : string -> string -> list MavenDoc)
           (clojarsResults : string -> string -> list ClojarsItem)
           (name : string) (releasesOnly : bool) : option string :=
  match nonEmpty (mavenVersion mavenDocs (groupOf name) (artifactOf name) releasesOnly) with
  | Some ver => Some ver
  | None =>
      nonEmpty (clojarsVersion clojarsResults (groupOf name) (artifactOf name)
                               releasesOnly)
  end.

(** The answers of a batch coming lookup by lookup, in the order of the
    batch: one of the orders in which they may come. *)
Definition inBatchOrder : list (list event) -> list event := @concat event.

(** The queries sent to a registry among the events of a lookup. *)
Definition isMavenQuery (e : event) : bool :=
  match e with QueryMaven _ _ => true | _ => false end.

Definition isClojarsQuery (e : event) : bool :=
  match e with QueryClojars _ _ => true | _ => false end.

(** Whether a string has no slash. *)
Definition slashless (s : string) : Prop := ~ In "/"%char (list_ascii_of_string s).

(** Registries for the examples: Maven Central knows org.clojure/clojure,
    newest first; Clojars answers a search for weasel with a similar jar
    before the jar itself. *)
Definition exampleMaven (groupId artifactId : string) : list MavenDoc :=
  if String.eqb groupId "org.clojure" && String.eqb artifactId "clojure"
  then [{| v := "1.9.0-alpha14" |}; {| v := "1.8.0" |}]
  else [].

Definition exampleClojars (groupId artifactId : string) : list ClojarsItem :=
  if String.eqb groupId "weasel"
  then [{| group_name := "weasel"; jar_name := "weasel-nrepl"; version := "0.1.0" |};
        {| group_name := "weasel"; jar_name := "weasel"; version := "0.7.0" |}]
  else [].

(** The world after the check for rlwrap that [_runBuildClj] makes when it
    is asked to use rlwrap. *)
Definition afterWhich (run : program) (useRlwrap : bool) (w : world) : world :=
  if useRlwrap
  then World (snd (run "which rlwraps" (files w))) (unlinks w)
             (commands w ++ ["which rlwraps"])%list
  else w.

(** ** class ClojureScript: running the build script *)

(** [isRlwrapAvailable]: whether the command [which rlwraps] succeeds. *)
Definition isRlwrapAvailable (run : program) : M bool :=
  try_catch (execSync run "which rlwraps" ;;; ret true) (fun e => ret false).

(** [path.join(a, b, ...)] for segments that need no normalisation. *)
Definition path_join (segments : list string) : string :=
  match segments with
  | [] => "."
  | first :: rest => fold_left (fun p segment => p +:+ "/" +:+ segment) rest first
  end.

(** [list.join(':')] *)
Fixpoint join_colon (l : list string) : string :=
  match l with
  | [] => ""
  | [s] => s
  | s :: rest => s +:+ ":" +:+ join_colon rest
  end.

Section ClojureScript.

Variable sort : sorter.
Variable run : program.
Variable _config : Config.

(** The setting [src], as [getConfig('src')] returns it. *)
Variable src : string.

Definition _getUserCljPath : string :=
  path_join [tempdir _config; "user"; "user.clj"].

Definition _getBuildCljPath : string := path_join [tempdir _config; "build.clj"].

(** [_runBuildClj(options)], with [(options || {}).useRlwrap] as argument. *)
Definition _runBuildClj (useRlwrap : bool) : M unit :=
  let! available := (if useRlwrap then isRlwrapAvailable run else ret false) in
  let rlwrap := if useRlwrap && available then "rlwrap " else "" in
  let! classpathValue := getClasspath sort run _config in
  let classpath := join_colon [classpathValue; _getUserCljPath; src] in
  let buildClj := _getBuildCljPath in
  sh run (rlwrap +:+ "java -cp " +:+ classpath +:+ " clojure.main " +:+ buildClj).

End ClojureScript.

(** The java command of [_runBuildClj]. *)
Definition javaCommand (c : Config) (src classpath rlwrap : string) : string :=
  rlwrap +:+ "java -cp " +:+ classpath +:+ ":" +:+ _getUserCljPath c +:+ ":" +:+ src
  +:+ " clojure.main " +:+ _getBuildCljPath c.

(** ** class Config: the settings in package.json *)

Module ConfigClass.

#[local] Set Warnings "-register-all".

(** The values of package.json and of the defaults.  [Undefined] is not
    JSON; it is the value of a default that is not set.  Numbers are the
    integers the settings use. *)
Inductive value : Type :=
| Undefined
| Null
| Bool (b : bool)
| Num (n : Z)
| Str (s : string)
| Arr (items : list value)
| Obj (props : list (string * value)).

Definition properties : Type := list (string * value).

Definition keys (o : properties) : list string := map fst o.

(** [o[k]] for an own property; [None] is undefined. *)
Fixpoint lookup (o : properties) (k : string) : option value :=
  match o with
  | [] => None
  | (k', x) :: rest => if String.eqb k' k then Some x else lookup rest k
  end.

(** [o[k] = x] *)
Fixpoint put (o : properties) (k : string) (x : value) : properties :=
  match o with
  | [] => [(k, x)]
  | (k', x') :: rest =>
      if String.eqb k' k then (k', x) :: rest else (k', x') :: put rest k x
  end.

Definition hasOwnProperty (o : properties) (k : string) : bool :=
  match lookup o k with
  | Some _ => true
  | None => false
  end.

(** [x === undefined] for the result of a property read. *)
Definition is_undefined (o : option value) : bool :=
  match o with
  | None => true
  | Some Undefined => true
  | Some _ => false
  end.

Definition truthy (x : value) : bool :=
  match x with
  | Undefined => false
  | Null => false
  | Bool b => b
  | Num n => negb (n =? 0)
  | Str s => Js.truthy s
  | Arr _ => true
  | Obj _ => true
  end.

(** [a === b] where [a] is a string. *)
Definition is_string (a : string) (b : option value) : bool :=
  match b with
  | Some (Str s) => String.eqb a s
  | _ => false
  end.

(** The own enumerable properties of a value used as an object.  A string
    or an array that is not empty has its characters or elements as
    properties, under array indices, which this model of objects leaves
    out. *)
Inductive enumeration : Type :=
| Props (props : properties)
| NotAnObject
| Indexed.

Definition enumerate (x : option value) : enumeration :=
  match x with
  | None => NotAnObject
  | Some Undefined => NotAnObject
  | Some Null => NotAnObject
  | Some (Bool _) => Props []
  | Some (Num _) => Props []
  | Some (Str EmptyString) => Props []
  | Some (Str _) => Indexed
  | Some (Arr []) => Props []
  | Some (Arr _) => Indexed
  | Some (Obj props) => Props props
  end.

(** [Object.assign(target, {...source})] for the properties of a source. *)
Definition assign (target source : properties) : properties :=
  fold_left (fun o kx => put o (fst kx) (snd kx)) source target.

(** [lodash.difference(a, b)] *)
Definition difference (a b : list string) : list string :=
  List.filter (fun k => negb (existsb (String.eqb k) b)) a.

(** [list.join(', ')] *)
Fixpoint join_comma (l : list string) : string :=
  match l with
  | [] => ""
  | [s] => s
  | s :: rest => s +:+ ", " +:+ join_comma rest
  end.

(** What [JSON.parse(JSON.stringify(x))] makes of a value: a property that
    is undefined is dropped, an element that is undefined becomes null. *)
Fixpoint jsonify (x : value) : value :=
  match x with
  | Arr items =>
      Arr (map (fun item => match item with
                            | Undefined => Null
                            | _ => jsonify item
                            end) items)
  | Obj props =>
      Obj (flat_map (fun kx => match kx with
                               | (_, Undefined) => []
                               | (k, x') => [(k, jsonify x')]
                               end) props)
  | _ => x
  end.

(** One line of the table that [updateDependencies] prints. *)
Record row : Type :=
  { packageName : string; currentVersion : option value; fetchedVersion : string }.

(** What the process prints, and the queries of a version lookup, in the
    order in which they happen. *)
Inductive output : Type :=
| Warning (text : string)              (* console.error('Warning:', text) *)
| Error (text : string)                (* console.error('Error:', text) *)
| ErrorThrown                          (* console.error('Error:', exception) *)
| Line (text : string)                 (* console.log(text) *)
| ConfigData (data : value)            (* the JSON text of the data *)
| Table (rows : list row)              (* asTable(rows) *)
| Lookup (e : event).                  (* a query, or the line a lookup logs *)

(** package.json as parsed, when the file exists; [this._cljsbuild]; what
    was printed and queried so far. *)
Record state : Type :=
  State { packageJson : option properties;
          _cljsbuild : option properties;
          console : list output }.

Inductive result (A : Type) : Type :=
| Done (a : A)
| Exited (code : Z)       (* process.exit(code) *)
| TypeError               (* an exception thrown by the runtime *)
| NotModelled.            (* a string or an array used as an object, or a
                             member of Object.prototype read as a setting *)
Arguments Done {A} a.
Arguments Exited {A} code.
Arguments TypeError {A}.
Arguments NotModelled {A}.

Definition C (A : Type) : Type := state -> result A * state.

Definition ret {A : Type} (a : A) : C A := fun s => (Done a, s).

Definition bind {A B : Type} (m : C A) (k : A -> C B) : C B :=
  fun s =>
    match m s with
    | (Done a, s') => k a s'
    | (Exited code, s') => (Exited code, s')
    | (TypeError, s') => (TypeError, s')
    | (NotModelled, s') => (NotModelled, s')
    end.

Definition print (o : output) : C unit :=
  fun s => (Done tt, State (packageJson s) (_cljsbuild s) (console s ++ [o])).

Definition log (text : string) : C unit := print (Line text).

Definition warn (text : string) : C unit := print (Warning text).

Definition logErrorAndExit {A : Type} (text : string) : C A :=
  fun s => (Exited 1, State (packageJson s) (_cljsbuild s) (console s ++ [Error text])).

(** [promise.catch(logErrorAndExit)] around the body of a [then]. *)
Definition catch_logErrorAndExit {A : Type} (body : C A) : C A :=
  fun s =>
    match body s with
    | (TypeError, s') =>
        (Exited 1, State (packageJson s') (_cljsbuild s') (console s' ++ [ErrorThrown]))
    | other => other
    end.

Definition quote : string := String "034"%char "".

Definition _getDefaults : properties :=
  [("fakeProjectFile", Str "project.clj");
   ("tempdir", Str ".cljsbuild");
   ("target", Str "out/main.js");
   ("assetPath", Str ".");
   ("src", Str "src");
   ("main", Undefined);
   ("replPort", Num 9000);
   ("replHost", Str "localhost");
   ("dependencies", Undefined)].

Definition _loadPackageJson : C properties :=
  fun s =>
    match packageJson s with
    | Some data => (Done data, s)
    | None => logErrorAndExit "package.json does not exist" s
    end.

Definition _loadConfig : C unit :=
  fun s =>
    match _cljsbuild s with
    | Some _ => (Done tt, s)
    | None =>
        bind _loadPackageJson
          (fun data =>
             bind (if negb (hasOwnProperty data "cljsbuild")
                   then warn ("no " +:+ quote +:+ "cljsbuild" +:+ quote
                              +:+ " key found in package.json")
                   else ret tt)
               (fun _ =>
                  let defaults := _getDefaults in
                  match enumerate (lookup data "cljsbuild") with
                  | Indexed => fun s' => (NotModelled, s')
                  | source =>
                      let cljsbuild :=
                        assign (assign [] defaults)
                               match source with
                               | Props props => props
                               | _ => []
                               end in
                      bind (fun s' =>
                              (Done tt, State (packageJson s') (Some cljsbuild) (console s')))
                        (fun _ =>
                           (* more checks *)
                           let unknownKeys := difference (keys cljsbuild) (keys defaults) in
                           match unknownKeys with
                           | [] => ret tt
                           | _ :: _ =>
                               warn ("unknown keys in package.json " +:+ quote
                                     +:+ "cljsbuild" +:+ quote +:+ ": "
                                     +:+ join_comma unknownKeys)
                           end)
                  end))
          s
    end.

(** The assignment [pointer[property] = value] at the end of the walk of
    [_updatePackageJson] along [path], on the document itself. *)
Inductive walk : Type :=
| Walked (document : value)
| WalkTypeError
| WalkNotModelled.

Fixpoint assignAt (path : list string) (property : string) (x : value)
         (pointer : value) : walk :=
  match pointer with
  | Obj props =>
      match path with
      | [] => Walked (Obj (put props property x))
      | key :: path' =>
          let child :=
            if is_undefined (lookup props key) then Obj []
            else match lookup props key with
                 | Some c => c
                 | None => Obj []
                 end in
          match assignAt path' property x child with
          | Walked child' => Walked (Obj (put props key child'))
          | failure => failure
          end
      end
  | Undefined | Null | Bool _ | Num _ => WalkTypeError
  | Str _ | Arr _ => WalkNotModelled
  end.

(** The content of package.json after
    [fs.writeFileSync('package.json', JSON.stringify(packageJson, null, 2))]. *)
Definition written (document : value) : properties :=
  match jsonify document with
  | Obj props => props
  | _ => []
  end.

Definition _updatePackageJson (address : list string) (x : value) : C unit :=
  let path := List.removelast address in
  let property := List.last address "undefined" in
  bind _loadPackageJson
    (fun data =>
       match assignAt path property x (Obj data) with
       | WalkTypeError => fun s => (TypeError, s)
       | WalkNotModelled => fun s => (NotModelled, s)
       | Walked document =>
           bind (fun s => (Done tt, State (Some (written document)) None (console s)))
             (fun _ => _loadConfig)
       end).

(** The names of the members of [Object.prototype], which every object
    inherits. *)
Definition objectPrototype : list string :=
  ["constructor"; "hasOwnProperty"; "isPrototypeOf"; "propertyIsEnumerable";
   "toLocaleString"; "toString"; "valueOf"; "__defineGetter__";
   "__defineSetter__"; "__lookupGetter__"; "__lookupSetter__"; "__proto__"].

Definition inherited (key : string) : bool := existsb (String.eqb key) objectPrototype.

(** Return a property from cljsbuild package.json entry.  Print an
    errormessage and exit if the key does not exist.  The key is any string:
    where the settings have no property of that name, [this._cljsbuild[key]]
    is the member of [Object.prototype] of that name when there is one, a
    function that is returned as if it were a setting and that is no value of
    this model. *)
Definition getConfig (key : string) : C value :=
  bind _loadConfig
    (fun _ s =>
       match _cljsbuild s with
       | Some cljsbuild =>
           match lookup cljsbuild key with
           | Some x =>
               if is_undefined (Some x)
               then logErrorAndExit ("undefined package.json value: cljsbuild." +:+ key) s
               else (Done x, s)
           | None =>
               if inherited key
               then (NotModelled, s)
               else logErrorAndExit ("undefined package.json value: cljsbuild." +:+ key) s
           end
       | None => (TypeError, s)
       end).

(** [x.k] for a value that is not null or undefined and a key that is a
    plain name: only an object has such a property. *)
Definition member (x : value) (k : string) : option value :=
  match x with
  | Obj props => lookup props k
  | _ => None
  end.

(** A name-to-version object of the registry lookup as a value. *)
Definition versions (o : Js.object) : properties :=
  map (fun kv => (fst kv, Str (snd kv))) o.

(** The command-line options of [init] and [update]. *)
Record options : Type := { releasesOnly : bool; cider : bool; dryRun : bool }.

Section Commands.

Variable mavenDocs : string -> string -> list MavenDoc.
Variable clojarsResults : string -> string -> list ClojarsItem.
Variable arrival : list (list event) -> list event.

(** The continuation of a promise runs with its value, after the queries
    and the lines of the lookup. *)
Definition await {A : Type} (p : promise A) : C A :=
  fun s =>
    (Done (fst p),
     State (packageJson s) (_cljsbuild s) (console s ++ map Lookup (events p))).

Definition defaultPackages (cider : bool) : list string :=
  (["org.clojure/clojure"; "org.clojure/clojurescript"]
     ++ ["org.clojure/tools.nrepl"; "com.cemerick/piggieback"; "weasel"]
     ++ (if cider then ["cider/cider-nrepl"; "refactor-nrepl"] else []))%list.

(** Write an initial cljsbuild config into package.json. *)
Definition initConfig (options : options) : C unit :=
  bind _loadPackageJson
    (fun data =>
       bind (if match lookup data "cljsbuild" with
                | Some cljsbuild =>
                    truthy cljsbuild
                    && match member cljsbuild "dependencies" with
                       | Some dependencies => truthy dependencies
                       | None => false
                       end
                | None => false
                end
             then logErrorAndExit "package.json cljsbuild.dependencies does already exist"
             else ret tt)
         (fun _ =>
            bind (await (_findPackageVersions mavenDocs clojarsResults arrival
                           (defaultPackages (cider options)) (releasesOnly options)))
              (fun dependencies =>
                 catch_logErrorAndExit
                   (let packageJsonCljsbuild :=
                      Obj [("main", Str "<add-your-namespace-here>/core");
                           ("dependencies", Obj (versions dependencies))] in
                    if dryRun options
                    then print (ConfigData packageJsonCljsbuild)
                    else
                      bind (log "writing cljsbuild section to package.json")
                        (fun _ =>
                           bind (_updatePackageJson ["cljsbuild"] packageJsonCljsbuild)
                             (fun _ => log "done")))))).

(** The names of [updateDependencies] whose fetched version is there and is
    not the current one. *)
Definition isUpdated (current : properties) (fetched : Js.object)
           (packageName : string) : bool :=
  let fetchedVersion := Js.get fetched packageName in
  let currentVersion := lookup current packageName in
  match fetchedVersion with
  | Some ver => Js.truthy ver && negb (is_string ver currentVersion)
  | None => false
  end.

(** Update the cljs dependencies to their newest versions *)
Definition updateDependencies (options : options) : C unit :=
  bind (getConfig "dependencies")
    (fun current =>
       match enumerate (Some current) with
       | NotAnObject => fun s => (TypeError, s)
       | Indexed => fun s => (NotModelled, s)
       | Props current =>
           let packageNames := keys current in
           bind (await (_findPackageVersions mavenDocs clojarsResults arrival
                          packageNames (releasesOnly options)))
             (fun fetched =>
                catch_logErrorAndExit
                  (let updated :=
                     assign []
                       (map (fun packageName =>
                               (packageName,
                                match Js.get fetched packageName with
                                | Some ver => Str ver
                                | None => Undefined
                                end))
                            (List.filter (isUpdated current fetched) packageNames)) in
                   match keys updated with
                   | [] => log "no updates found"
                   | _ :: _ =>
                       bind (log (if dryRun options
                                  then "would update the following dependencies in package.json:"
                                  else "updating package.json with new cljs versions:"))
                         (fun _ =>
                            bind (print
                                    (Table
                                       (map (fun packageName =>
                                               {| packageName := packageName;
                                                  currentVersion := lookup current packageName;
                                                  fetchedVersion :=
                                                    template (Js.get fetched packageName) |})
                                            (keys updated))))
                              (fun _ =>
                                 if dryRun options then ret tt
                                 else
                                   bind (_updatePackageJson ["cljsbuild"]
                                           (Obj [("dependencies",
                                                  Obj (assign (assign [] current) updated))]))
                                     (fun _ => log "done")))
                   end))
       end).

End Commands.

(** ** Notions used to state the properties of the settings *)


(** The properties that [_loadConfig] lays over the defaults: those of the
    cljsbuild entry of package.json when it has any. *)
Definition sectionOf (data : properties) : option properties :=
  match enumerate (lookup data "cljsbuild") with
  | Props props => Some props
  | NotAnObject => Some []
  | Indexed => None
  end.

(** What [_loadConfig] prints while it loads. *)
Definition loadWarnings (data section : properties) : list output :=
  ((if hasOwnProperty data "cljsbuild" then []
    else [Warning ("no " +:+ quote +:+ "cljsbuild" +:+ quote
                   +:+ " key found in package.json")])
   ++ match difference (keys (assign _getDefaults section)) (keys _getDefaults) with
      | [] => []
      | unknownKeys =>
          [Warning ("unknown keys in package.json " +:+ quote +:+ "cljsbuild"
                    +:+ quote +:+ ": " +:+ join_comma unknownKeys)]
      end)%list.

(** The setting that [getConfig] finds for a key: the one of package.json,
    else the default. *)
Definition setting (section : properties) (key : string) : option value :=
  match lookup section key with
  | Some x => Some x
  | None => lookup _getDefaults key
  end.

(** A value of JSON: no [Undefined] in it. *)
Fixpoint is_json (x : value) : bool :=
  match x with
  | Undefined => false
  | Arr items => forallb is_json items
  | Obj props => forallb (fun kx => is_json (snd kx)) props
  | _ => true
  end.

(** Induction on values, with the elements and the properties of nested
    values at hand. *)
Section ValueInduction.

Variable P : value -> Prop.
Hypothesis P_undefined : P Undefined.
Hypothesis P_null : P Null.
Hypothesis P_bool : forall b, P (Bool b).
Hypothesis P_num : forall n, P (Num n).
Hypothesis P_str : forall s, P (Str s).
Hypothesis P_arr : forall items, Forall P items -> P (Arr items).
Hypothesis P_obj : forall props, Forall (fun kx => P (snd kx)) props -> P (Obj props).

Fixpoint value_induction (x : value) : P x :=
  match x with
  | Undefined => P_undefined
  | Null => P_null
  | Bool b => P_bool b
  | Num n => P_num n
  | Str s => P_str s
  | Arr items =>
      P_arr items
        ((fix each (l : list value) : Forall P l :=
            match l with
            | [] => @List.Forall_nil _ P
            | y :: l' => @List.Forall_cons _ P y l' (value_induction y) (each l')
            end) items)
  | Obj props =>
      P_obj props
        ((fix each (l : list (string * value)) : Forall (fun kx => P (snd kx)) l :=
            match l with
            | [] => @List.Forall_nil _ _
            | kx :: l' => @List.Forall_cons _ _ kx l' (value_induction (snd kx)) (each l')
            end) props)
  end.

End ValueInduction.

(** A package.json with a cljsbuild entry among others, as an example. *)
Definition examplePackageJson : properties :=
  [("name", Str "demo");
   ("cljsbuild",
    Obj [("main", Str "demo/core");
         ("optimizations", Str "advanced");
         ("dependencies",
          Obj [("org.clojure/clojure", Str "1.7.0"); ("weasel", Str "0.7.0")])]);
   ("version", Str "0.1.0")].

Definition exampleState : state := State (Some examplePackageJson) None [].

(** An operation that leaves package.json as it is. *)
Definition keeps {A : Type} (m : C A) : Prop :=
  forall s, packageJson (snd (m s)) = packageJson s.

(** The dependencies after an update: each name with the fetched version
    when it counts as updated, with its current value otherwise. *)
Definition refreshed (current : properties) (fetched : Js.object) : properties :=
  map (fun kx =>
         (fst kx,
          if isUpdated current fetched (fst kx)
          then Str (template (Js.get fetched (fst kx)))
          else snd kx))
      current.

(** The test of [initConfig]: [data.cljsbuild && data.cljsbuild.dependencies]. *)
Definition hasDependencies (data : properties) : bool :=
  match lookup data "cljsbuild" with
  | Some cljsbuild =>
      truthy cljsbuild
      && match member cljsbuild "dependencies" with
         | Some dependencies => truthy dependencies
         | None => false
         end
  | None => false
  end.

(** The options of the examples: releases only, written to package.json. *)
Definition releasesWritten : options :=
  {| releasesOnly := true; cider := false; dryRun := false |}.

End ConfigClass.

(** * Properties *)

(** ** SHA-1 test vectors *)

Example sha1_empty : Sha1.hex "" = "da39a3ee5e6b4b0d3255bfef95601890afd80709".
Proof. vm_compute. reflexivity. Qed.

Example sha1_abc : Sha1.hex "abc" = "a9993e364706816aba3e25717850c26c9cd0d89d".
Proof. vm_compute. reflexivity. Qed.

Example sha1_two_blocks :
  Sha1.hex "abcdbcdecdefdefgefghfghighijhijkijkljklmklmnlmnomnopnopq"
  = "84983e441c3bd26ebaae4aa1f95129e5e54670f1".
Proof. vm_compute. reflexivity. Qed.

(** ** Strings *)

Lemma append_cons (c : ascii) (s t : string) :
  String c s +:+ t = String c (s +:+ t).
Proof. reflexivity. Qed.

Lemma length_append (s t : string) :
  String.length (s +:+ t) = (String.length s + String.length t)%nat.
Proof.
  induction s as [|c s IH]; [reflexivity|].
  rewrite append_cons. simpl. now rewrite IH.
Qed.

Lemma append_empty_r (s : string) : s +:+ "" = s.
Proof.
  induction s as [|c s IH]; [reflexivity|]. rewrite append_cons. now f_equal.
Qed.

Lemma append_assoc (s t u : string) : (s +:+ t) +:+ u = s +:+ (t +:+ u).
Proof.
  induction s as [|c s IH]; [reflexivity|]. rewrite !append_cons. now f_equal.
Qed.

Lemma append_cancel_l (s t u : string) : s +:+ t = s +:+ u -> t = u.
Proof.
  induction s as [|c s IH]; intros H; [exact H|].
  rewrite !append_cons in H. injection H. exact IH.
Qed.

Lemma append_cancel_r (s t u : string) : s +:+ u = t +:+ u -> s = t.
Proof.
  revert t. induction s as [|c s IH]; intros [|d t] H.
  - reflexivity.
  - apply (f_equal String.length) in H. rewrite !length_append in H. simpl in H. lia.
  - apply (f_equal String.length) in H. rewrite !length_append in H. simpl in H. lia.
  - rewrite !append_cons in H. injection H as -> H. f_equal. now apply IH.
Qed.

(** ** Sorting *)

Lemma compareNames_not_positive (a b : entry) : compareNames a b <= 0.
Proof.
  unfold compareNames, Js.gt, Js.lt.
  destruct (ltb (fst a) (fst b)); lia.
Qed.

Lemma insertLeft_stays comparefn element before :
  (forall tmp, comparefn tmp element <= 0) ->
  insertLeft comparefn element before = element :: before.
Proof.
  intros H. destruct before as [|tmp rest]; simpl; [reflexivity|].
  specialize (H tmp). destruct (Z.ltb_spec 0 (comparefn tmp element)); [lia | reflexivity].
Qed.

Lemma InsertionSort_fold comparefn a before :
  (forall x y, comparefn x y <= 0) ->
  fold_left (fun before element => insertLeft comparefn element before) a before
  = (rev a ++ before)%list.
Proof.
  intros H. revert before. induction a as [|x a IH]; intros before; simpl.
  - reflexivity.
  - rewrite insertLeft_stays by auto. rewrite IH. now rewrite <- app_assoc.
Qed.

(** The comparator never asks for a move, so the list stays as it was. *)
Lemma InsertionSort_compareNames (l : list entry) :
  InsertionSort compareNames l = l.
Proof.
  unfold InsertionSort. rewrite InsertionSort_fold by apply compareNames_not_positive.
  rewrite app_nil_r. apply rev_involutive.
Qed.

Lemma insertLeft_Permutation comparefn element before :
  Permutation (insertLeft comparefn element before) (element :: before).
Proof.
  induction before as [|tmp rest IH]; simpl.
  - reflexivity.
  - destruct (0 <? comparefn tmp element).
    + rewrite IH. apply perm_swap.
    + reflexivity.
Qed.

Lemma InsertionSort_fold_Permutation comparefn a before :
  Permutation
    (fold_left (fun before element => insertLeft comparefn element before) a before)
    (a ++ before).
Proof.
  revert before. induction a as [|x a IH]; intros before; simpl.
  - reflexivity.
  - rewrite IH. rewrite insertLeft_Permutation. symmetry. apply Permutation_middle.
Qed.

Lemma insertLeft_map comparefn (g : entry -> entry) element before :
  (forall a b, comparefn (g a) (g b) = comparefn a b) ->
  insertLeft comparefn (g element) (map g before)
  = map g (insertLeft comparefn element before).
Proof.
  intros H. induction before as [|tmp rest IH]; simpl.
  - reflexivity.
  - rewrite H. destruct (0 <? comparefn tmp element); simpl; [now rewrite IH | reflexivity].
Qed.

Lemma InsertionSort_fold_map comparefn (g : entry -> entry) a before :
  (forall a b, comparefn (g a) (g b) = comparefn a b) ->
  fold_left (fun before element => insertLeft comparefn element before)
            (map g a) (map g before)
  = map g (fold_left (fun before element => insertLeft comparefn element before)
                     a before).
Proof.
  intros H. revert before. induction a as [|x a IH]; intros before; simpl.
  - reflexivity.
  - rewrite insertLeft_map by exact H. apply IH.
Qed.

Lemma InsertionSort_ComparisonSort : ComparisonSort InsertionSort.
Proof.
  split.
  - intros cmp l. unfold InsertionSort. rewrite <- Permutation_rev.
    rewrite InsertionSort_fold_Permutation. now rewrite app_nil_r.
  - intros cmp g l H. unfold InsertionSort.
    change (@nil entry) with (map g []) at 1.
    rewrite InsertionSort_fold_map by exact H. now rewrite map_rev.
Qed.

(** ** Objects *)

Lemma get_In (o : Js.object) k v :
  List.NoDup (Js.keys o) -> In (k, v) o -> Js.get o k = Some v.
Proof.
  induction o as [|[k' v'] o IH]; simpl; intros Hnd Hin; [contradiction|].
  inversion Hnd as [|? ? Hnotin Hnd']; subst.
  destruct Hin as [Heq | Hin].
  - injection Heq as -> ->. now rewrite String.eqb_refl.
  - destruct (String.eqb_spec k' k) as [-> | _]; [|auto].
    exfalso. apply Hnotin. change k with (fst (k, v)). now apply in_map.
Qed.

Lemma get_Some_In (o : Js.object) k v : Js.get o k = Some v -> In (k, v) o.
Proof.
  induction o as [|[k' v'] o IH]; simpl; [discriminate|].
  destruct (String.eqb_spec k' k) as [-> | _]; intros H.
  - injection H as ->. now left.
  - right. auto.
Qed.

Lemma get_None_keys (o : Js.object) k : Js.get o k = None -> ~ In k (Js.keys o).
Proof.
  induction o as [|[k' v'] o IH]; simpl; [tauto|].
  destruct (String.eqb_spec k' k) as [-> | Hne]; [discriminate|].
  intros H [Heq | Hin]; [congruence | now apply IH].
Qed.

Lemma dependencyList_object (c : Config) :
  List.NoDup (Js.keys (dependencies c)) -> dependencyList c = dependencies c.
Proof.
  unfold dependencyList, Js.keys. rewrite map_map. intros Hnd.
  rewrite <- (map_id (dependencies c)) at 2.
  apply map_ext_in. intros [k v] Hin. simpl.
  now rewrite (get_In _ _ _ Hnd Hin).
Qed.

Lemma revalue_absent k v' (l : list entry) :
  ~ In k (map fst l) -> map (revalue k v') l = l.
Proof.
  induction l as [|[k0 v0] l IH]; simpl; intros H; [reflexivity|].
  unfold revalue at 1. simpl.
  destruct (String.eqb_spec k0 k) as [-> | _]; [tauto|].
  f_equal. apply IH. tauto.
Qed.

Lemma set_present (o : Js.object) k v v' :
  List.NoDup (Js.keys o) -> Js.get o k = Some v -> Js.set o k v' = map (revalue k v') o.
Proof.
  induction o as [|[k0 v0] o IH]; simpl; [discriminate|].
  intros Hnd Hget. inversion Hnd as [|? ? Hnotin Hnd']; subst.
  unfold revalue at 1. simpl.
  destruct (String.eqb_spec k0 k) as [-> | _].
  - f_equal. symmetry. now apply revalue_absent.
  - f_equal. now apply IH.
Qed.

Lemma set_absent (o : Js.object) k v :
  Js.get o k = None -> Js.set o k v = (o ++ [(k, v)])%list.
Proof.
  induction o as [|[k0 v0] o IH]; simpl; [reflexivity|].
  destruct (String.eqb_spec k0 k) as [-> | _]; [discriminate|].
  intros H. f_equal. now apply IH.
Qed.

Lemma without_Permutation (o : Js.object) k v :
  List.NoDup (Js.keys o) -> Js.get o k = Some v ->
  Permutation o ((k, v) :: without k o).
Proof.
  induction o as [|[k0 v0] o IH]; simpl; [discriminate|].
  intros Hnd Hget. inversion Hnd as [|? ? Hnotin Hnd']; subst.
  destruct (String.eqb_spec k0 k) as [-> | Hne]; simpl.
  - injection Hget as ->. constructor.
    replace (without k o) with o; [reflexivity|].
    clear - Hnotin. induction o as [|[k1 v1] o IH]; [reflexivity|].
    simpl in *. unfold without. simpl.
    destruct (String.eqb_spec k1 k) as [-> | _]; [tauto|]. simpl.
    f_equal. apply IH. tauto.
  - rewrite perm_swap. constructor. now apply IH.
Qed.

Lemma keys_NoDup_Permutation (l l' : list entry) :
  Permutation l l' -> List.NoDup (map fst l') -> List.NoDup (map fst l).
Proof.
  intros Hp Hnd. eapply Permutation.Permutation_NoDup; [|exact Hnd].
  apply Permutation_map. now symmetry.
Qed.

(** ** The serialized dependencies *)

Lemma serialize_cons (d : entry) (l : list entry) :
  serialize (d :: l) = (fst d +:+ snd d) +:+ serialize l.
Proof. reflexivity. Qed.

Lemma serialize_app (l1 l2 : list entry) :
  serialize (l1 ++ l2) = serialize l1 +:+ serialize l2.
Proof.
  induction l1 as [|d l1 IH]; [reflexivity|].
  rewrite <- app_comm_cons, !serialize_cons, IH. symmetry. apply append_assoc.
Qed.

Lemma serialize_length (l1 l2 : list entry) :
  Permutation l1 l2 ->
  String.length (serialize l1) = String.length (serialize l2).
Proof.
  induction 1 as [| d l1 l2 _ IH | d1 d2 l | l1 l2 l3 _ IH1 _ IH2].
  - reflexivity.
  - rewrite !serialize_cons, !length_append. lia.
  - rewrite !serialize_cons, !length_append. lia.
  - congruence.
Qed.

Lemma dependencyString_serialize (sort : sorter) (c : Config) :
  List.NoDup (Js.keys (dependencies c)) ->
  dependencyString sort c = serialize (sort compareNames (dependencies c)).
Proof.
  intros Hnd. unfold dependencyString. now rewrite dependencyList_object.
Qed.

Lemma compareNames_revalue k v' (a b : entry) :
  compareNames (revalue k v' a) (revalue k v' b) = compareNames a b.
Proof.
  unfold compareNames, revalue.
  destruct (String.eqb (fst a) k), (String.eqb (fst b) k); reflexivity.
Qed.

Lemma NoDup_set (o : Js.object) k v :
  List.NoDup (Js.keys o) -> List.NoDup (Js.keys (Js.set o k v)).
Proof.
  intros Hnd. destruct (Js.get o k) as [v0|] eqn:Hget.
  - rewrite (set_present _ _ _ _ Hnd Hget). unfold Js.keys. rewrite map_map.
    erewrite map_ext; [exact Hnd|]. intros [k0 v1]. unfold revalue. simpl.
    now destruct (String.eqb k0 k).
  - rewrite (set_absent _ _ _ Hget). unfold Js.keys. rewrite map_app. simpl.
    apply get_None_keys in Hget.
    eapply Permutation.Permutation_NoDup; [apply Permutation_cons_append|].
    now constructor.
Qed.

Lemma NoDup_without (o : Js.object) k :
  List.NoDup (Js.keys o) -> List.NoDup (Js.keys (without k o)).
Proof.
  induction o as [|[k0 v0] o IH]; simpl; intros Hnd; [constructor|].
  inversion Hnd as [|? ? Hnotin Hnd']; subst.
  unfold without. simpl. destruct (negb (String.eqb k0 k)); simpl; [|now apply IH].
  constructor; [|now apply IH].
  intros Hin. apply Hnotin. unfold Js.keys in *.
  apply in_map_iff in Hin as [x [Hx Hin]]. apply filter_In in Hin as [Hin _].
  apply in_map_iff. eauto.
Qed.

Section Sensitivity.

Variable sort : sorter.
Hypothesis engine : ComparisonSort sort.

Lemma changed_version_string (o : Js.object) k v v' :
  List.NoDup (Js.keys o) -> Js.get o k = Some v -> v' <> v ->
  serialize (sort compareNames (Js.set o k v'))
  <> serialize (sort compareNames o).
Proof.
  intros Hnd Hget Hne Heq.
  rewrite (set_present _ _ _ _ Hnd Hget) in Heq.
  rewrite (sort_by_comparator _ engine) in Heq by apply compareNames_revalue.
  pose proof (sort_permutes _ engine compareNames o) as Hperm.
  assert (Hin : In (k, v) (sort compareNames o)).
  { eapply Permutation_in; [symmetry; exact Hperm|]. now apply get_Some_In. }
  assert (Hnd' : List.NoDup (map fst (sort compareNames o))).
  { eapply keys_NoDup_Permutation; eauto. }
  apply in_split in Hin as [l1 [l2 Hsplit]]. rewrite Hsplit in Heq, Hnd'.
  rewrite map_app in Hnd'. simpl in Hnd'.
  apply List.NoDup_remove in Hnd' as [_ Hnotin].
  rewrite map_app in Heq. simpl in Heq.
  rewrite !revalue_absent in Heq
    by (intros Hin; apply Hnotin, in_or_app; auto).
  unfold revalue in Heq. simpl in Heq. rewrite String.eqb_refl in Heq.
  rewrite !serialize_app, !serialize_cons in Heq. simpl in Heq.
  apply append_cancel_l, append_cancel_r, append_cancel_l in Heq.
  contradiction.
Qed.

Lemma added_coordinate_string (o : Js.object) k v :
  Js.get o k = None -> k <> "" ->
  serialize (sort compareNames (Js.set o k v))
  <> serialize (sort compareNames o).
Proof.
  intros Hget Hne Heq. apply (f_equal String.length) in Heq.
  rewrite (set_absent _ _ _ Hget) in Heq.
  rewrite (serialize_length _ _ (sort_permutes _ engine _ _)) in Heq.
  rewrite (serialize_length _ _ (sort_permutes _ engine _ o)) in Heq.
  rewrite serialize_app, serialize_cons, !length_append in Heq. simpl in Heq.
  destruct k; [congruence | simpl in Heq; lia].
Qed.

Lemma removed_coordinate_string (o : Js.object) k v :
  List.NoDup (Js.keys o) -> Js.get o k = Some v -> k <> "" ->
  serialize (sort compareNames (without k o))
  <> serialize (sort compareNames o).
Proof.
  intros Hnd Hget Hne Heq. apply (f_equal String.length) in Heq.
  rewrite (serialize_length _ _ (sort_permutes _ engine _ _)) in Heq.
  rewrite (serialize_length _ _ (sort_permutes _ engine _ o)) in Heq.
  rewrite (serialize_length _ _ (without_Permutation _ _ _ Hnd Hget)) in Heq.
  rewrite serialize_cons, !length_append in Heq. simpl in Heq.
  destruct k; [congruence | simpl in Heq; lia].
Qed.

End Sensitivity.

(** ** The fingerprint *)

(** The comparator is not a consistent comparator in the sense of
    ECMAScript: it calls "a" smaller than "b" and "b" equal to "a". *)
Lemma compareNames_inconsistent :
  compareNames ("a", "1") ("b", "1") = -1 /\ compareNames ("b", "1") ("a", "1") = 0.
Proof. split; reflexivity. Qed.

Lemma InsertionSort_insertion_order (c : Config) :
  List.NoDup (Js.keys (dependencies c)) ->
  dependencyString InsertionSort c = serialize (dependencies c).
Proof.
  intros Hnd. rewrite dependencyString_serialize by exact Hnd.
  now rewrite InsertionSort_compareNames.
Qed.

(** C1 (defect of the code).  Two dependency sets with the same name/version
    pairs, entered in different orders, get different fingerprints when the
    runtime sorts with [InsertionSort]: the comparator never returns a
    positive number, nothing moves, and the digest is taken over the pairs in
    insertion order. *)
Theorem fingerprint_depends_on_insertion_order :
  Permutation (dependencies weaselFirst) (dependencies clojureFirst) /\
  (forall k, Js.get (dependencies weaselFirst) k = Js.get (dependencies clojureFirst) k) /\
  dependencyString InsertionSort weaselFirst = "weasel0.7.0org.clojure/clojure1.8.0" /\
  dependencyString InsertionSort clojureFirst = "org.clojure/clojure1.8.0weasel0.7.0" /\
  _hashDepdendencies InsertionSort weaselFirst
  <> _hashDepdendencies InsertionSort clojureFirst.
Proof.
  split; [apply perm_swap|]. split; [|split; [|split]].
  - intros k.
    change (Js.get (dependencies weaselFirst) k)
      with (if String.eqb "weasel" k then Some "0.7.0"
            else if String.eqb "org.clojure/clojure" k then Some "1.8.0" else None).
    change (Js.get (dependencies clojureFirst) k)
      with (if String.eqb "org.clojure/clojure" k then Some "1.8.0"
            else if String.eqb "weasel" k then Some "0.7.0" else None).
    destruct (String.eqb_spec "weasel" k) as [<- | _]; [reflexivity|].
    now destruct (String.eqb "org.clojure/clojure" k).
  - vm_compute. reflexivity.
  - vm_compute. reflexivity.
  - vm_compute. discriminate.
Qed.

(** C4, the claim as stated fails: the pairs are joined with nothing between
    them, so different dependency sets can have the same serialization and
    the same fingerprint, and a coordinate whose name and version are empty
    can be added without changing it. *)
Lemma serialization_is_ambiguous :
  let c1 := {| tempdir := ".cljsbuild"; dependencies := [("ab", "c")] |} in
  let c2 := {| tempdir := ".cljsbuild"; dependencies := [("a", "bc")] |} in
  let c3 := with_dependencies c1 (Js.set (dependencies c1) "" "") in
  dependencies c1 <> dependencies c2 /\
  dependencyString InsertionSort c1 = dependencyString InsertionSort c2 /\
  _hashDepdendencies InsertionSort c1 = _hashDepdendencies InsertionSort c2 /\
  Js.get (dependencies c1) "" = None /\
  dependencyString InsertionSort c3 = dependencyString InsertionSort c1 /\
  _hashDepdendencies InsertionSort c3 = _hashDepdendencies InsertionSort c1.
Proof.
  cbv zeta. split; [discriminate|].
  split; [vm_compute; reflexivity|]. split; [vm_compute; reflexivity|].
  split; [reflexivity|]. split; vm_compute; reflexivity.
Qed.

(** C4, as amended.  The fingerprint is the SHA-1 digest, in hexadecimal, of
    the names each followed by its version, nothing between them, in the
    order in which the runtime's sort leaves the pairs.  Whatever that order,
    giving one coordinate another version, adding a coordinate with a name or
    removing one changes the serialized string, hence the fingerprint unless
    SHA-1 collides on the two strings. *)
Theorem fingerprint_sensitivity (sort : sorter) (c : Config) (o' : Js.object) :
  ComparisonSort sort ->
  List.NoDup (Js.keys (dependencies c)) ->
  single_change (dependencies c) o' ->
  _hashDepdendencies sort c
  = Sha1.hex (Js.join_empty (map (fun d => fst d +:+ snd d)
                                 (sort compareNames (dependencies c)))) /\
  dependencyString sort (with_dependencies c o') <> dependencyString sort c /\
  (_hashDepdendencies sort (with_dependencies c o') <> _hashDepdendencies sort c \/
   sha1_collision (dependencyString sort (with_dependencies c o'))
                  (dependencyString sort c)).
Proof.
  intros engine Hnd Hchange.
  assert (Hstr : dependencyString sort (with_dependencies c o')
                 <> dependencyString sort c).
  { rewrite (dependencyString_serialize sort c Hnd).
    destruct Hchange as [k v v' Hget Hne | k v Hget Hne | k v Hget Hne];
      rewrite dependencyString_serialize; simpl.
    - now apply changed_version_string with (v := v).
    - now apply NoDup_set.
    - now apply added_coordinate_string.
    - now apply NoDup_set.
    - now apply removed_coordinate_string with (v := v).
    - now apply NoDup_without. }
  split; [|split; [exact Hstr|]].
  - unfold _hashDepdendencies. f_equal.
    rewrite (dependencyString_serialize sort c Hnd). reflexivity.
  - unfold _hashDepdendencies, sha1_collision.
    destruct (string_dec (Sha1.hex (dependencyString sort (with_dependencies c o')))
                         (Sha1.hex (dependencyString sort c))); auto.
Qed.

Lemma fingerprint_sensitivity_witness :
  let o' := Js.set (dependencies weaselFirst) "weasel" "0.7.1" in
  dependencyString InsertionSort (with_dependencies weaselFirst o')
  <> dependencyString InsertionSort weaselFirst.
Proof.
  apply (fingerprint_sensitivity InsertionSort weaselFirst
           (Js.set (dependencies weaselFirst) "weasel" "0.7.1")).
  - exact InsertionSort_ComparisonSort.
  - repeat constructor; simpl; intuition discriminate.
  - apply change_version with (v := "0.7.0"); [reflexivity | discriminate].
Defined.

(** ** Regular expressions *)

Module RegexFacts.
Import Regex.

Lemma append_is_empty (s t : string) : s +:+ t = "" -> s = "" /\ t = "".
Proof. destruct s; [auto | discriminate]. Qed.

Lemma nullable_lang (r : re) : nullable r = true <-> lang r "".
Proof.
  split.
  - induction r; simpl; intros H; try discriminate.
    + constructor.
    + apply andb_true_iff in H as [H1 H2].
      change "" with ("" +:+ ""). constructor; auto.
    + apply orb_true_iff in H as [H | H]; [apply lang_alt_l | apply lang_alt_r]; auto.
    + constructor.
  - intros H. remember "" as s eqn:Hs.
    induction H; simpl; try discriminate; try reflexivity.
    + apply append_is_empty in Hs as [-> ->]. rewrite IHlang1, IHlang2; auto.
    + rewrite IHlang; auto.
    + rewrite IHlang; auto. apply orb_true_r.
Qed.

Lemma lang_deriv (c : ascii) (r : re) (s : string) :
  lang (deriv c r) s -> lang r (String c s).
Proof.
  revert s. induction r; simpl; intros s H.
  - inversion H.
  - inversion H.
  - destruct (Ascii.eqb_spec c0 c) as [-> | _]; inversion H; subst. constructor.
  - destruct (in_class lo hi c) eqn:Hc; inversion H; subst. now constructor.
  - assert (Hseq : forall s, lang (Seq (deriv c r1) r2) s -> lang (Seq r1 r2) (String c s)).
    { intros s0 H0. inversion H0; subst.
      change (String c (s1 +:+ s2)) with (String c s1 +:+ s2). constructor; auto. }
    destruct (nullable r1) eqn:Hn; [|auto].
    inversion H; subst; [auto|].
    change (String c s) with ("" +:+ String c s).
    constructor; [now apply nullable_lang | auto].
  - inversion H; subst; [apply lang_alt_l | apply lang_alt_r]; auto.
  - inversion H; subst.
    change (String c (s1 +:+ s2)) with (String c s1 +:+ s2). constructor; auto.
Qed.

Lemma deriv_lang (c : ascii) (r : re) (s : string) :
  lang r (String c s) -> lang (deriv c r) s.
Proof.
  intros H. remember (String c s) as cs eqn:Hcs. revert s Hcs.
  induction H; intros s0 Hcs; simpl; try discriminate.
  - injection Hcs as <- <-. rewrite Ascii.eqb_refl. constructor.
  - injection Hcs as <- <-. rewrite H. constructor.
  - destruct s1 as [|c1 s1].
    + change ("" +:+ s2) with s2 in Hcs.
      apply nullable_lang in H. rewrite H. apply lang_alt_r. auto.
    + rewrite append_cons in Hcs. injection Hcs as -> <-.
      assert (lang (Seq (deriv c r1) r2) (s1 +:+ s2)) by (constructor; auto).
      destruct (nullable r1); [now apply lang_alt_l | assumption].
  - apply lang_alt_l. auto.
  - apply lang_alt_r. auto.
  - destruct s1 as [|c1 s1].
    + apply IHlang2. exact Hcs.
    + rewrite append_cons in Hcs. injection Hcs as -> <-.
      constructor; auto.
Qed.

(** The matcher decides the language. *)
Lemma matches_lang (r : re) (s : string) : matches r s = true <-> lang r s.
Proof.
  revert r. induction s as [|c s IH]; intros r; simpl.
  - apply nullable_lang.
  - rewrite IH. split; [apply lang_deriv | apply deriv_lang].
Qed.

End RegexFacts.

(** ** The release pattern *)

Section ReleasePattern.
Import Regex.

Let digit : re := Class "0" "9".

Lemma lang_digit_star (s : string) :
  lang (Star digit) s
  <-> Forall (fun c => in_class "0" "9" c = true) (list_ascii_of_string s).
Proof.
  split.
  - intros H. remember (Star digit) as r eqn:Hr.
    induction H; try discriminate.
    + constructor.
    + injection Hr as ->. inversion H; subst.
      rewrite append_cons. simpl. constructor; auto.
  - induction s as [|c s IH]; simpl; intros H.
    + constructor.
    + inversion H; subst.
      change (String c s) with (String c "" +:+ s).
      constructor; [now constructor | auto].
Qed.

Lemma lang_digits (s : string) : lang (Plus digit) s <-> numeric s.
Proof.
  unfold numeric, Plus. split.
  - intros H. inversion H as [| | |? ? s1 s2 H1 H2| | | |]; subst.
    inversion H1; subst. rewrite append_cons. split; [discriminate|].
    simpl. constructor; [assumption|]. now apply lang_digit_star.
  - intros [Hne H]. destruct s as [|c s]; [congruence|].
    simpl in H. inversion H; subst.
    change (String c s) with (String c "" +:+ s).
    constructor; [now constructor | now apply lang_digit_star].
Qed.

Lemma lang_seq_inv (r1 r2 : re) (s : string) :
  lang (Seq r1 r2) s -> exists s1 s2, s = s1 +:+ s2 /\ lang r1 s1 /\ lang r2 s2.
Proof. intros H. inversion H; subst. eauto. Qed.

Lemma lang_chr_inv (c : ascii) (s : string) : lang (Chr c) s -> s = String c "".
Proof. intros H. now inversion H. Qed.

(** The regular expression and the pattern of the specification describe
    the same strings. *)
Lemma releaseRegex_strictRelease (s : string) :
  lang releaseRegex s <-> strictRelease s.
Proof.
  unfold releaseRegex, strictRelease, Opt. fold digit. split.
  - intros H.
    apply lang_seq_inv in H as (major & s1 & -> & Hmajor & H).
    apply lang_seq_inv in H as (dot1 & s2 & -> & Hdot1 & H).
    apply lang_seq_inv in H as (minor & s3 & -> & Hminor & H).
    apply lang_seq_inv in H as (dot2 & s4 & -> & Hdot2 & H).
    apply lang_seq_inv in H as (patch & s5 & -> & Hpatch & H).
    apply lang_chr_inv in Hdot1 as ->. apply lang_chr_inv in Hdot2 as ->.
    apply lang_digits in Hmajor, Hminor, Hpatch.
    exists major, minor, patch. repeat (split; [assumption|]).
    inversion H as [| | | |? ? ? Hbuild|? ? ? Heps| |]; subst.
    + right. apply lang_seq_inv in Hbuild as (dash & build & -> & Hdash & Hbuild).
      apply lang_chr_inv in Hdash as ->. apply lang_digits in Hbuild.
      exists build. split; [assumption | reflexivity].
    + left. inversion Heps; subst. now rewrite append_empty_r.
  - intros (major & minor & patch & Hmajor & Hminor & Hpatch & H).
    apply lang_digits in Hmajor, Hminor, Hpatch.
    destruct H as [-> | (build & Hbuild & ->)].
    + rewrite <- (append_empty_r patch).
      repeat (apply lang_seq; [assumption || apply lang_chr|]).
      apply lang_alt_r. constructor.
    + apply lang_digits in Hbuild.
      repeat (apply lang_seq; [assumption || apply lang_chr|]).
      apply lang_alt_l. apply lang_seq; [apply lang_chr | assumption].
Qed.

End ReleasePattern.

Lemma matchesRelease_strictRelease (s : string) :
  matchesRelease s = true <-> strictRelease s.
Proof.
  unfold matchesRelease. rewrite RegexFacts.matches_lang.
  apply releaseRegex_strictRelease.
Qed.

(** ** The registries *)

Section RegistryFacts.

Variable mavenDocs : string -> string -> list MavenDoc.
Variable clojarsResults : string -> string -> list ClojarsItem.

Lemma filter_filter_comm {A : Type} (p q : A -> bool) (l : list A) :
  List.filter p (List.filter q l) = List.filter q (List.filter p l).
Proof.
  induction l as [|x l IH]; simpl; [reflexivity|].
  destruct (q x) eqn:Hq, (p x) eqn:Hp; simpl; rewrite ?Hq, ?Hp, IH; reflexivity.
Qed.

Lemma findLatestMavenRelease_accepts groupId artifactId releasesOnly :
  findLatestMavenRelease mavenDocs groupId artifactId releasesOnly
  = (first_version v
       (List.filter (fun doc => accepts releasesOnly (v doc))
                    (mavenDocs groupId artifactId)),
     ([QueryMaven groupId artifactId], [])).
Proof.
  unfold findLatestMavenRelease, then_, httpGetJson, resolved, accepts.
  destruct releasesOnly; simpl; [reflexivity|].
  f_equal. f_equal. induction (mavenDocs groupId artifactId); simpl; congruence.
Qed.

Lemma findLatestClojarsRelease_accepts groupId artifactId releasesOnly :
  findLatestClojarsRelease clojarsResults groupId artifactId releasesOnly
  = (first_version version
       (List.filter (fun item => accepts releasesOnly (version item))
          (List.filter (sameCoordinate groupId artifactId)
                       (clojarsResults groupId artifactId))),
     ([QueryClojars groupId artifactId], [])).
Proof.
  unfold findLatestClojarsRelease, then_, httpGetJson, resolved. simpl.
  f_equal. f_equal. apply filter_filter_comm.
Qed.

Lemma first_version_hd_error {A : Type} (field : A -> string) (l : list A) :
  first_version field l = hd_error (map field l).
Proof. now destruct l. Qed.

(** The lookup of a name in terms of what the registries answer. *)
Lemma fetchLatestVersion_cases name releasesOnly :
  _fetchLatestVersion mavenDocs clojarsResults name releasesOnly
  = let g := groupOf name in
    let a := artifactOf name in
    let primary := mavenVersion mavenDocs g a releasesOnly in
    let secondary := clojarsVersion clojarsResults g a releasesOnly in
    if truthy_version primary
    then (option_map (pair name) primary, ([QueryMaven g a], []))
    else if truthy_version secondary
         then (option_map (pair name) secondary, ([QueryMaven g a], [QueryClojars g a]))
         else (None,
               ([QueryMaven g a],
                [QueryClojars g a;
                 Log ("no version found for package " +:+ Js.stringify name)])).
Proof.
  unfold _fetchLatestVersion, mavenVersion, clojarsVersion.
  fold (groupOf name). fold (artifactOf name).
  rewrite findLatestMavenRelease_accepts, findLatestClojarsRelease_accepts.
  rewrite !first_version_hd_error.
  unfold then_, resolved. simpl.
  destruct (truthy_version (hd_error (map v _))); [reflexivity|].
  destruct (truthy_version (hd_error (map version _))); reflexivity.
Qed.

End RegistryFacts.

(** C8.  With [releasesOnly] a version passes the filter of either registry
    exactly when it is MAJOR.MINOR.PATCH, optionally followed by -BUILD, all
    components numeric; without it every version passes.  Each registry
    answers with the first of its candidates that passes. *)
Theorem release_filtering :
  (forall version, accepts true version = true <-> strictRelease version) /\
  (forall version, accepts false version = true) /\
  accepts true "1.2.3" = true /\ accepts true "1.2.3-4" = true /\
  accepts true "1.2.3-alpha" = false /\ accepts true "2.0.0-rc1" = false /\
  (forall mavenDocs groupId artifactId releasesOnly,
      fst (findLatestMavenRelease mavenDocs groupId artifactId releasesOnly)
      = first_version v
          (List.filter (fun doc => accepts releasesOnly (v doc))
                       (mavenDocs groupId artifactId))) /\
  (forall clojarsResults groupId artifactId releasesOnly,
      fst (findLatestClojarsRelease clojarsResults groupId artifactId releasesOnly)
      = first_version version
          (List.filter (fun item => accepts releasesOnly (version item))
             (List.filter (sameCoordinate groupId artifactId)
                          (clojarsResults groupId artifactId)))).
Proof.
  split; [exact matchesRelease_strictRelease|].
  split; [reflexivity|].
  repeat (split; [vm_compute; reflexivity|]).
  split; intros.
  - now rewrite findLatestMavenRelease_accepts.
  - now rewrite findLatestClojarsRelease_accepts.
Qed.

(** C7.  The name is looked up at Maven Central first: the query goes out
    when the lookup is started.  The primary answer is the first document of
    Maven Central that passes the release filter; when it is a version (not
    empty), that is the result and Clojars is not queried.  When it is not,
    Clojars is queried, later, and the first of its results for the
    coordinate that passes the release filter is the result; when that is no
    version either, the result is absent, the line that says so is logged
    with the name as JSON text, and nothing is thrown. *)
Theorem registry_fallback_order
        (mavenDocs : string -> string -> list MavenDoc)
        (clojarsResults : string -> string -> list ClojarsItem)
        (name : string) (releasesOnly : bool) :
  let groupId := nth 0 (Js.split "/" name) "" in
  let artifactId := Js.nth_or 1 (Js.split "/" name) groupId in
  let primary :=
    hd_error
      (map v (List.filter (fun doc => accepts releasesOnly (v doc))
                          (mavenDocs groupId artifactId))) in
  let secondary :=
    hd_error
      (map version
         (List.filter (fun item => accepts releasesOnly (version item))
            (List.filter (sameCoordinate groupId artifactId)
                         (clojarsResults groupId artifactId)))) in
  _fetchLatestVersion mavenDocs clojarsResults name releasesOnly
  = if truthy_version primary
    then (option_map (pair name) primary, ([QueryMaven groupId artifactId], []))
    else if truthy_version secondary
         then (option_map (pair name) secondary,
               ([QueryMaven groupId artifactId], [QueryClojars groupId artifactId]))
         else (None,
               ([QueryMaven groupId artifactId],
                [QueryClojars groupId artifactId;
                 Log ("no version found for package " +:+ Js.stringify name)])).
Proof.
  intros groupId artifactId primary secondary.
  exact (fetchLatestVersion_cases mavenDocs clojarsResults name releasesOnly).
Qed.

(** ** Batches *)

Lemma get_set (o : Js.object) k v k' :
  Js.get (Js.set o k v) k' = if String.eqb k k' then Some v else Js.get o k'.
Proof.
  induction o as [|[k0 v0] o IH]; simpl.
  - reflexivity.
  - destruct (String.eqb_spec k0 k) as [-> | Hne]; simpl.
    + now destruct (String.eqb k k').
    + rewrite IH. destruct (String.eqb_spec k0 k') as [-> | _]; [|reflexivity].
      destruct (String.eqb_spec k k'); congruence.
Qed.

Lemma collect_get (ds : list (option (string * string))) (o : Js.object) k ver :
  (forall n v1 v2,
      In (Some (n, v1)) ds \/ Js.get o n = Some v1 ->
      In (Some (n, v2)) ds \/ Js.get o n = Some v2 -> v1 = v2) ->
  Js.get (fold_left collect ds o) k = Some ver
  <-> In (Some (k, ver)) ds \/ Js.get o k = Some ver.
Proof.
  revert o. induction ds as [|d ds IH]; intros o Hfun; simpl.
  - tauto.
  - assert (Hstep : forall n x, Js.get (collect o d) n = Some x ->
                                d = Some (n, x) \/ Js.get o n = Some x).
    { intros n x. destruct d as [[n0 x0]|]; simpl; [|auto].
      rewrite get_set. destruct (String.eqb_spec n0 n) as [-> | _]; [|auto].
      intros [= ->]. auto. }
    rewrite IH.
    + split.
      * intros [H | H]; [auto|]. apply Hstep in H as [-> | H]; auto.
      * intros [[-> | H] | H]; [| auto |].
        -- right. simpl. rewrite get_set. now rewrite String.eqb_refl.
        -- right. destruct d as [[n0 x0]|]; simpl; [|assumption].
           rewrite get_set. destruct (String.eqb_spec n0 k) as [-> | _]; [|assumption].
           f_equal. apply (Hfun k); simpl; auto.
    + intros n v1 v2 H1 H2. apply (Hfun n); simpl.
      * destruct H1 as [H1 | H1]; [auto|]. apply Hstep in H1 as [-> | H1]; auto.
      * destruct H2 as [H2 | H2]; [auto|]. apply Hstep in H2 as [-> | H2]; auto.
Qed.

Lemma collect_NoDup (ds : list (option (string * string))) (o : Js.object) :
  List.NoDup (Js.keys o) -> List.NoDup (Js.keys (fold_left collect ds o)).
Proof.
  revert o. induction ds as [|[[n x]|] ds IH]; intros o H; simpl; auto.
  apply IH. now apply NoDup_set.
Qed.

Section BatchFacts.

Variable mavenDocs : string -> string -> list MavenDoc.
Variable clojarsResults : string -> string -> list ClojarsItem.

(** The value of a lookup is what the registries have for the name. *)
Lemma fetched_registryVersion name releasesOnly :
  fst (_fetchLatestVersion mavenDocs clojarsResults name releasesOnly)
  = option_map (pair name) (registryVersion mavenDocs clojarsResults name releasesOnly).
Proof.
  rewrite fetchLatestVersion_cases. cbv zeta. unfold registryVersion.
  destruct (mavenVersion _ _ _ _) as [[|c ver]|]; simpl; try reflexivity;
    destruct (clojarsVersion _ _ _ _) as [[|c' ver']|]; reflexivity.
Qed.

Lemma fetched_name name releasesOnly n ver :
  fst (_fetchLatestVersion mavenDocs clojarsResults name releasesOnly)
  = Some (n, ver) -> n = name.
Proof.
  rewrite fetchLatestVersion_cases. cbv zeta.
  destruct (truthy_version _).
  - simpl. destruct (mavenVersion _ _ _ _); simpl; [|discriminate]. congruence.
  - destruct (truthy_version _); simpl; [|discriminate].
    destruct (clojarsVersion _ _ _ _); simpl; [|discriminate]. congruence.
Qed.

Lemma findPackageVersions_value arrival packages releasesOnly :
  fst (_findPackageVersions mavenDocs clojarsResults arrival packages releasesOnly)
  = fold_left collect
      (map (fun name =>
              fst (_fetchLatestVersion mavenDocs clojarsResults name releasesOnly))
           packages) [].
Proof.
  unfold _findPackageVersions, then_, all, resolved. simpl. now rewrite map_map.
Qed.

End BatchFacts.

(** C9.  Whatever the order in which the answers come, the object returned
    for a batch has a property for a name exactly when the name is in the
    batch and the registries have a version for it (Maven Central, or
    Clojars when Maven Central has none), with that version as value; names
    without a version are left out, and the batch returns its object all
    the same.  A batch [X; Y] in which no registry has a version for X and
    one has a version for Y gives the object with Y alone. *)
Theorem partial_batch_tolerance
        (mavenDocs : string -> string -> list MavenDoc)
        (clojarsResults : string -> string -> list ClojarsItem)
        (arrival : list (list event) -> list event)
        (packages : list string) (releasesOnly : bool) :
  let produced name := registryVersion mavenDocs clojarsResults name releasesOnly in
  let found :=
    fst (_findPackageVersions mavenDocs clojarsResults arrival packages releasesOnly) in
  (forall name ver,
      Js.get found name = Some ver
      <-> In name packages /\ produced name = Some ver) /\
  List.NoDup (Js.keys found) /\
  (forall X Y ver,
      packages = [X; Y] -> produced X = None -> produced Y = Some ver ->
      found = [(Y, ver)]).
Proof.
  intros produced found. subst found. rewrite findPackageVersions_value.
  assert (Hfetch : forall name,
             fst (_fetchLatestVersion mavenDocs clojarsResults name releasesOnly)
             = option_map (pair name) (produced name))
    by (intros name; apply fetched_registryVersion).
  split; [|split].
  - intros name ver. rewrite collect_get.
    + simpl. rewrite in_map_iff. split.
      * intros [(n & Hn & Hin) | H]; [|discriminate].
        rewrite Hfetch in Hn. destruct (produced n) as [x|] eqn:Hp; [|discriminate].
        injection Hn as -> ->. auto.
      * intros [Hin Hp]. left. exists name. split; [|assumption].
        now rewrite Hfetch, Hp.
    + intros n v1 v2 [H1 | H1] [H2 | H2]; try discriminate.
      apply in_map_iff in H1 as (n1 & Hn1 & _), H2 as (n2 & Hn2 & _).
      rewrite Hfetch in Hn1, Hn2.
      destruct (produced n1) as [x1|] eqn:Hp1; [|discriminate].
      destruct (produced n2) as [x2|] eqn:Hp2; [|discriminate].
      injection Hn1 as -> ->. injection Hn2 as -> ->. congruence.
  - apply collect_NoDup. constructor.
  - intros X Y ver -> HX HY. simpl. now rewrite !Hfetch, HX, HY.
Qed.

(** ** The classpath cache *)

Lemma hex_not_empty (s : string) : Sha1.hex s <> "".
Proof.
  unfold Sha1.hex. destruct (Sha1.digest s) as [[[[h0 h1] h2] h3] h4].
  discriminate.
Qed.

Lemma truthy_not_empty (s : string) : Js.truthy s = true <-> s <> "".
Proof. destruct s; simpl; split; congruence. Qed.

Lemma resolve_join_inj (dir name1 name2 : string) :
  resolve_join dir name1 = resolve_join dir name2 -> name1 = name2.
Proof.
  unfold resolve_join. intros H.
  apply append_cancel_l in H. now apply append_cancel_l in H.
Qed.

Lemma hash_file_not_value_file (c : Config) :
  classpathHashFile c <> classpathValueFile c.
Proof. intros H. apply resolve_join_inj in H. discriminate. Qed.

Lemma pom_not_hash_file (c : Config) : _getPomXmlPath c <> classpathHashFile c.
Proof. intros H. apply resolve_join_inj in H. discriminate. Qed.

Lemma pom_not_value_file (c : Config) : _getPomXmlPath c <> classpathValueFile c.
Proof. intros H. apply resolve_join_inj in H. discriminate. Qed.

Lemma readFile_value (fileName : string) (w : world) :
  readFile fileName w = (Returned (default "" (files w !! fileName)), w).
Proof.
  unfold readFile, try_catch, readFileSync.
  destruct (files w !! fileName); reflexivity.
Qed.

(** What the [try ... finally] of [getClasspath] amounts to. *)
Lemma recomputeClasspath_value (run : program) (c : Config) (h : string) (w : world) :
  recomputeClasspath run c h w
  = let '(ok, fs) :=
      run (classpathCommand c) (<[_getPomXmlPath c := pomXml c]> (files w)) in
    if ok
    then (match fs !! classpathValueFile c with
          | Some classpath => Returned classpath
          | None => Thrown (ENOENT (classpathValueFile c))
          end,
          World (<[classpathHashFile c := h]> fs)
                (unlinks w ++ [_getPomXmlPath c]) (commands w ++ [classpathCommand c]))
    else (Thrown (ExecFailed (classpathCommand c)),
          World fs (unlinks w ++ [_getPomXmlPath c])
                (commands w ++ [classpathCommand c])).
Proof.
  unfold recomputeClasspath, try_finally, bind, createPomXml, writeFileSync, sh,
    execSync, removeFile, try_catch, unlink, readFileSync.
  simpl.
  destruct (run _ _) as [[|] fs]; simpl; [|reflexivity].
  rewrite lookup_insert_ne by apply hash_file_not_value_file.
  destruct (fs !! classpathValueFile c); reflexivity.
Qed.

Lemma installDependencies_value (run : program) (c : Config) (w : world) :
  installDependencies run c w
  = let '(ok, fs) :=
      run ("mvn install -f " +:+ _getPomXmlPath c)
          (<[_getPomXmlPath c := pomXml c]> (files w)) in
    (if ok then Returned tt
     else Thrown (ExecFailed ("mvn install -f " +:+ _getPomXmlPath c)),
     World fs (unlinks w ++ [_getPomXmlPath c])
           (commands w ++ ["mvn install -f " +:+ _getPomXmlPath c])).
Proof.
  unfold installDependencies, try_finally, bind, createPomXml, writeFileSync, sh,
    execSync, removeFile, try_catch, unlink.
  simpl. destruct (run _ _) as [[|] fs]; reflexivity.
Qed.

Lemma getClasspath_cases (sort : sorter) (run : program) (c : Config) (w : world) :
  getClasspath sort run c w
  = if cacheHit sort c w
    then (Returned (default "" (files w !! classpathValueFile c)), w)
    else recomputeClasspath run c (_hashDepdendencies sort c) w.
Proof.
  unfold getClasspath, bind, cacheHit. rewrite !readFile_value.
  destruct (_ && _); reflexivity.
Qed.

Lemma cacheHit_true (sort : sorter) (c : Config) (w : world) :
  cacheHit sort c w = true
  <-> files w !! classpathHashFile c = Some (_hashDepdendencies sort c)
      /\ exists classpath,
           files w !! classpathValueFile c = Some classpath /\ classpath <> "".
Proof.
  unfold cacheHit. rewrite andb_true_iff, String.eqb_eq, truthy_not_empty. split.
  - intros [Hh Hv]. split.
    + destruct (files w !! classpathHashFile c) as [h|]; simpl in Hh.
      * now subst.
      * symmetry in Hh. now apply hex_not_empty in Hh.
    + destruct (files w !! classpathValueFile c) as [x|]; simpl in Hv; [eauto | congruence].
  - intros [-> (x & -> & Hx)]. auto.
Qed.

(** C5, the claim as stated fails: with the fingerprint of the current
    dependencies persisted and a value file that exists but is empty,
    [getClasspath] runs Maven and returns what Maven wrote. *)
Lemma empty_cached_value_is_recomputed :
  let w := cachedWorld (_hashDepdendencies InsertionSort weaselFirst) "" in
  files w !! classpathHashFile weaselFirst
  = Some (_hashDepdendencies InsertionSort weaselFirst) /\
  files w !! classpathValueFile weaselFirst = Some "" /\
  fst (getClasspath InsertionSort (mavenWrites "a.jar") weaselFirst w)
  = Returned "a.jar" /\
  commands (snd (getClasspath InsertionSort (mavenWrites "a.jar") weaselFirst w))
  = [classpathCommand weaselFirst].
Proof. cbv zeta. repeat (split; [vm_compute; reflexivity|]). vm_compute. reflexivity. Qed.

(** C5, as amended.  When the persisted fingerprint is the fingerprint of
    the current dependencies and the persisted value is not empty,
    [getClasspath] returns that value and leaves the world as it is: no
    command is run, no file written. *)
Theorem cache_hit_returns_persisted_value
        (sort : sorter) (run : program) (c : Config) (w : world) (classpath : string) :
  files w !! classpathHashFile c = Some (_hashDepdendencies sort c) ->
  files w !! classpathValueFile c = Some classpath ->
  classpath <> "" ->
  getClasspath sort run c w = (Returned classpath, w).
Proof.
  intros Hh Hv Hne. rewrite getClasspath_cases.
  replace (cacheHit sort c w) with true.
  - now rewrite Hv.
  - symmetry. apply cacheHit_true. eauto.
Qed.

Lemma cache_hit_returns_persisted_value_witness :
  let w := cachedWorld (_hashDepdendencies InsertionSort weaselFirst) "a.jar:b.jar" in
  getClasspath InsertionSort mavenFails weaselFirst w = (Returned "a.jar:b.jar", w).
Proof.
  apply (cache_hit_returns_persisted_value InsertionSort mavenFails weaselFirst
           (cachedWorld (_hashDepdendencies InsertionSort weaselFirst) "a.jar:b.jar")
           "a.jar:b.jar").
  - vm_compute. reflexivity.
  - vm_compute. reflexivity.
  - discriminate.
Defined.

(** C6.  When no fingerprint is persisted, or another one than that of the
    current dependencies, whatever the value file holds, [getClasspath] runs
    the Maven command once, and nothing else, whether the command succeeds
    or fails.  When the command succeeds and has written the value file,
    the content of that file is returned, it is the persisted value, and
    the current fingerprint is persisted beside it. *)
Theorem cache_miss_recomputes_once
        (sort : sorter) (run : program) (c : Config) (w : world) :
  files w !! classpathHashFile c <> Some (_hashDepdendencies sort c) ->
  let w' := snd (getClasspath sort run c w) in
  commands w' = (commands w ++ [classpathCommand c])%list /\
  forall (fs : gmap string string) (classpath : string),
    run (classpathCommand c) (<[_getPomXmlPath c := pomXml c]> (files w)) = (true, fs) ->
    fs !! classpathValueFile c = Some classpath ->
    fst (getClasspath sort run c w) = Returned classpath /\
    files w' !! classpathValueFile c = Some classpath /\
    files w' !! classpathHashFile c = Some (_hashDepdendencies sort c).
Proof.
  intros Hh. cbv zeta. rewrite getClasspath_cases.
  replace (cacheHit sort c w) with false.
  - rewrite recomputeClasspath_value. split.
    + destruct (run _ _) as [[|] fs]; reflexivity.
    + intros fs classpath Hrun Hv. rewrite Hrun, Hv. simpl.
      rewrite lookup_insert_ne by apply hash_file_not_value_file.
      rewrite lookup_insert_eq. auto.
  - symmetry. apply not_true_is_false. rewrite cacheHit_true. tauto.
Qed.

Lemma cache_miss_recomputes_once_witness :
  let w' := snd (getClasspath InsertionSort (mavenWrites "a.jar") weaselFirst
                   (cachedWorld "0123" "old.jar")) in
  commands w' = [classpathCommand weaselFirst] /\
  fst (getClasspath InsertionSort (mavenWrites "a.jar") weaselFirst
         (cachedWorld "0123" "old.jar")) = Returned "a.jar" /\
  files w' !! classpathValueFile weaselFirst = Some "a.jar" /\
  files w' !! classpathHashFile weaselFirst
  = Some (_hashDepdendencies InsertionSort weaselFirst).
Proof.
  assert (Hstale : files (cachedWorld "0123" "old.jar") !! classpathHashFile weaselFirst
                   <> Some (_hashDepdendencies InsertionSort weaselFirst))
    by (vm_compute; discriminate).
  destruct (cache_miss_recomputes_once InsertionSort (mavenWrites "a.jar") weaselFirst
              (cachedWorld "0123" "old.jar") Hstale) as [Honce Hsuccess].
  split; [exact Honce|].
  apply (Hsuccess
           (<[".cljsbuild/classpath.value" := "a.jar"]>
              (<[_getPomXmlPath weaselFirst := pomXml weaselFirst]>
                 (files (cachedWorld "0123" "old.jar"))))
           "a.jar").
  - reflexivity.
  - vm_compute. reflexivity.
Defined.

(** C10.  A value file that exists and is empty is read as the empty string,
    as a missing one is, and in both cases [getClasspath] goes on to run the
    Maven command, also when the persisted fingerprint is the current one. *)
Theorem empty_value_file_is_a_miss
        (sort : sorter) (run : program) (c : Config) (w : world) :
  files w !! classpathValueFile c = Some "" \/ files w !! classpathValueFile c = None ->
  readFile (classpathValueFile c) w = (Returned "", w) /\
  getClasspath sort run c w
  = recomputeClasspath run c (_hashDepdendencies sort c) w /\
  commands (snd (getClasspath sort run c w))
  = (commands w ++ [classpathCommand c])%list.
Proof.
  intros Hv.
  assert (Hmiss : getClasspath sort run c w
                  = recomputeClasspath run c (_hashDepdendencies sort c) w).
  { rewrite getClasspath_cases. replace (cacheHit sort c w) with false; [reflexivity|].
    symmetry. apply not_true_is_false. rewrite cacheHit_true.
    intros [_ (x & Hx & Hne)]. destruct Hv; congruence. }
  split; [|split; [exact Hmiss|]].
  - rewrite readFile_value. destruct Hv as [-> | ->]; reflexivity.
  - rewrite Hmiss, recomputeClasspath_value.
    destruct (run _ _) as [[|] fs]; reflexivity.
Qed.

Lemma empty_value_file_is_a_miss_witness :
  let w := cachedWorld (_hashDepdendencies InsertionSort weaselFirst) "" in
  commands (snd (getClasspath InsertionSort mavenFails weaselFirst w))
  = [classpathCommand weaselFirst].
Proof.
  apply (empty_value_file_is_a_miss InsertionSort mavenFails weaselFirst
           (cachedWorld (_hashDepdendencies InsertionSort weaselFirst) "")).
  left. vm_compute. reflexivity.
Defined.

(** C2, the claim as stated fails: the value file is written by Maven
    itself, while it runs.  When Maven writes the file and then fails,
    [getClasspath] throws with the value file changed and the fingerprint
    file as it was, so that the persisted fingerprint (here of another
    dependency set) stands beside a value it was not computed for. *)
Lemma failed_recomputation_can_leave_a_new_value :
  let before := cachedWorld (_hashDepdendencies InsertionSort clojureFirst) "old.jar" in
  let result :=
    getClasspath InsertionSort (mavenWritesThenFails "part") weaselFirst before in
  fst result = Thrown (ExecFailed (classpathCommand weaselFirst)) /\
  files (snd result) !! classpathHashFile weaselFirst
  = files before !! classpathHashFile weaselFirst /\
  files before !! classpathValueFile weaselFirst = Some "old.jar" /\
  files (snd result) !! classpathValueFile weaselFirst = Some "part".
Proof. cbv zeta. repeat (split; [vm_compute; reflexivity|]). vm_compute. reflexivity. Qed.

(** C2, as amended.  When the Maven command fails on a cache miss,
    [getClasspath] throws and has itself written neither cache file: the
    files are those the command left, the fingerprint file among them.  The
    fingerprint is written only after the command has succeeded; the value
    file is written by the command. *)
Theorem failed_recomputation_writes_no_fingerprint
        (sort : sorter) (run : program) (c : Config) (w : world)
        (fs : gmap string string) :
  cacheHit sort c w = false ->
  run (classpathCommand c) (<[_getPomXmlPath c := pomXml c]> (files w)) = (false, fs) ->
  getClasspath sort run c w
  = (Thrown (ExecFailed (classpathCommand c)),
     World fs (unlinks w ++ [_getPomXmlPath c]) (commands w ++ [classpathCommand c])) /\
  (fs !! classpathHashFile c = files w !! classpathHashFile c ->
   fs !! classpathValueFile c = files w !! classpathValueFile c ->
   files (snd (getClasspath sort run c w)) !! classpathHashFile c
   = files w !! classpathHashFile c /\
   files (snd (getClasspath sort run c w)) !! classpathValueFile c
   = files w !! classpathValueFile c).
Proof.
  intros Hmiss Hrun.
  rewrite getClasspath_cases, Hmiss, recomputeClasspath_value, Hrun.
  split; [reflexivity|]. simpl. auto.
Qed.

Lemma failed_recomputation_writes_no_fingerprint_witness :
  getClasspath InsertionSort mavenFails weaselFirst (cachedWorld "0123" "old.jar")
  = (Thrown (ExecFailed (classpathCommand weaselFirst)),
     World (<[_getPomXmlPath weaselFirst := pomXml weaselFirst]>
              (files (cachedWorld "0123" "old.jar")))
           [_getPomXmlPath weaselFirst] [classpathCommand weaselFirst]).
Proof.
  apply (failed_recomputation_writes_no_fingerprint InsertionSort mavenFails
           weaselFirst (cachedWorld "0123" "old.jar")).
  - vm_compute. reflexivity.
  - reflexivity.
Defined.

(** C3 (defect of the code).  [removeFile] calls the asynchronous
    [fs.unlink]: the cleanup only asks for the removal.  When Maven fails,
    [installDependencies] and [getClasspath] throw with pom.xml still in
    place and its removal merely requested; the same holds when Maven
    succeeds. *)
Theorem pom_xml_is_still_there_after_the_call :
  let pom := _getPomXmlPath weaselFirst in
  let failed := installDependencies mavenFails weaselFirst emptyWorld in
  let failed' := getClasspath InsertionSort mavenFails weaselFirst emptyWorld in
  let done := installDependencies (mavenWrites "a.jar") weaselFirst emptyWorld in
  (fst failed = Thrown (ExecFailed ("mvn install -f " +:+ pom)) /\
   files (snd failed) !! pom = Some (pomXml weaselFirst) /\
   unlinks (snd failed) = [pom]) /\
  (fst failed' = Thrown (ExecFailed (classpathCommand weaselFirst)) /\
   files (snd failed') !! pom = Some (pomXml weaselFirst) /\
   unlinks (snd failed') = [pom]) /\
  (fst done = Returned tt /\
   files (snd done) !! pom = Some (pomXml weaselFirst) /\
   unlinks (snd done) = [pom]).
Proof.
  cbv zeta.
  repeat match goal with |- _ /\ _ => split end; vm_compute; reflexivity.
Qed.

(** * Further properties of the code *)

(** ** Looking up versions *)

Lemma hd_error_map_In {A : Type} (field : A -> string) (l : list A) (x : string) :
  hd_error (map field l) = Some x -> exists a, In a l /\ field a = x.
Proof.
  destruct l as [|a l]; simpl; [discriminate|]. intros [= <-]. eauto.
Qed.

Lemma mavenVersion_listed mavenDocs g a releasesOnly ver :
  mavenVersion mavenDocs g a releasesOnly = Some ver ->
  accepts releasesOnly ver = true /\
  exists doc, In doc (mavenDocs g a) /\ v doc = ver.
Proof.
  unfold mavenVersion. intros H.
  apply hd_error_map_In in H as (doc & Hin & <-).
  apply filter_In in Hin as [Hin Hacc]. eauto.
Qed.

Lemma clojarsVersion_listed clojarsResults g a releasesOnly ver :
  clojarsVersion clojarsResults g a releasesOnly = Some ver ->
  accepts releasesOnly ver = true /\
  exists item, In item (clojarsResults g a) /\ version item = ver /\
               group_name item = g /\ jar_name item = a.
Proof.
  unfold clojarsVersion. intros H.
  apply hd_error_map_In in H as (item & Hin & <-).
  apply filter_In in Hin as [Hin Hacc].
  apply filter_In in Hin as [Hin Hsame].
  unfold sameCoordinate in Hsame.
  apply andb_true_iff in Hsame as [Hg Ha].
  apply String.eqb_eq in Hg, Ha. eauto 10.
Qed.

Lemma truthy_version_Some (o : option string) :
  truthy_version o = true -> exists ver, o = Some ver /\ ver <> "".
Proof.
  destruct o as [[|c s]|]; simpl; try discriminate. intros _. eexists. split; [reflexivity | discriminate].
Qed.

(** X1.  A version that [_fetchLatestVersion] returns is not empty, passes the
    release filter, and is one that Maven Central lists for the group and
    artifact of the name or one that Clojars lists for exactly that group
    and jar. *)
Theorem fetched_version_is_listed
        (mavenDocs : string -> string -> list MavenDoc)
        (clojarsResults : string -> string -> list ClojarsItem)
        (name : string) (releasesOnly : bool) (n ver : string) :
  fst (_fetchLatestVersion mavenDocs clojarsResults name releasesOnly) = Some (n, ver) ->
  n = name /\ ver <> "" /\ accepts releasesOnly ver = true /\
  ((exists doc, In doc (mavenDocs (groupOf name) (artifactOf name)) /\ v doc = ver) \/
   (exists item,
       In item (clojarsResults (groupOf name) (artifactOf name)) /\
       version item = ver /\
       group_name item = groupOf name /\ jar_name item = artifactOf name)).
Proof.
  rewrite fetchLatestVersion_cases. cbv zeta.
  destruct (truthy_version (mavenVersion _ _ _ _)) eqn:Hm.
  - apply truthy_version_Some in Hm as (x & Hx & Hne). rewrite Hx. simpl.
    intros [= <- <-]. apply mavenVersion_listed in Hx as [Hacc Hdoc]. auto.
  - destruct (truthy_version (clojarsVersion _ _ _ _)) eqn:Hc; [|discriminate].
    apply truthy_version_Some in Hc as (x & Hx & Hne). rewrite Hx. simpl.
    intros [= <- <-]. apply clojarsVersion_listed in Hx as [Hacc Hitem]. auto.
Qed.

Lemma fetched_version_is_listed_witness :
  "weasel" = "weasel" /\ "0.7.0" <> "" /\ accepts true "0.7.0" = true /\
  ((exists doc, In doc (exampleMaven (groupOf "weasel") (artifactOf "weasel"))
                /\ v doc = "0.7.0") \/
   (exists item,
       In item (exampleClojars (groupOf "weasel") (artifactOf "weasel")) /\
       version item = "0.7.0" /\
       group_name item = groupOf "weasel" /\ jar_name item = artifactOf "weasel")).
Proof.
  apply (fetched_version_is_listed exampleMaven exampleClojars "weasel" true).
  vm_compute. reflexivity.
Defined.

Lemma fetched_accepts
      (mavenDocs : string -> string -> list MavenDoc)
      (clojarsResults : string -> string -> list ClojarsItem)
      (name : string) (releasesOnly : bool) (n ver : string) :
  fst (_fetchLatestVersion mavenDocs clojarsResults name releasesOnly) = Some (n, ver) ->
  accepts releasesOnly ver = true.
Proof.
  rewrite fetchLatestVersion_cases. cbv zeta.
  destruct (truthy_version (mavenVersion _ _ _ _)) eqn:Hm.
  - apply truthy_version_Some in Hm as (x & Hx & Hne). rewrite Hx. simpl.
    intros [= <- <-]. now apply mavenVersion_listed in Hx as [Hacc _].
  - destruct (truthy_version (clojarsVersion _ _ _ _)) eqn:Hc; [|discriminate].
    apply truthy_version_Some in Hc as (x & Hx & Hne). rewrite Hx. simpl.
    intros [= <- <-]. now apply clojarsVersion_listed in Hx as [Hacc _].
Qed.

Lemma collect_get_In (ds : list (option (string * string))) (o : Js.object) k ver :
  Js.get (fold_left collect ds o) k = Some ver ->
  In (Some (k, ver)) ds \/ Js.get o k = Some ver.
Proof.
  revert o. induction ds as [|d ds IH]; intros o H; simpl in *; [auto|].
  apply IH in H as [H | H]; [auto|].
  destruct d as [[n x]|]; simpl in H; [|auto].
  rewrite get_set in H. destruct (String.eqb_spec n k) as [-> | _]; [|auto].
  injection H as ->. auto.
Qed.

(** X2.  With [releasesOnly] every version in the object that
    [_findPackageVersions] returns is a strict release. *)
Theorem releases_only_batch
        (mavenDocs : string -> string -> list MavenDoc)
        (clojarsResults : string -> string -> list ClojarsItem)
        (arrival : list (list event) -> list event)
        (packages : list string) (name ver : string) :
  Js.get (fst (_findPackageVersions mavenDocs clojarsResults arrival packages true)) name
  = Some ver ->
  strictRelease ver.
Proof.
  rewrite findPackageVersions_value. intros H.
  apply collect_get_In in H as [H | H]; [|discriminate].
  apply in_map_iff in H as (n & Hn & _).
  apply fetched_accepts in Hn. now apply matchesRelease_strictRelease.
Qed.

Lemma releases_only_batch_witness : strictRelease "1.8.0".
Proof.
  apply (releases_only_batch exampleMaven exampleClojars inBatchOrder
           ["org.clojure/clojure"; "weasel"] "org.clojure/clojure" "1.8.0").
  vm_compute. reflexivity.
Defined.

Lemma collect_keys (ds : list (option (string * string))) (o : Js.object) :
  List.NoDup (Js.keys o ++ flat_map (fun d => match d with
                                              | Some (n, _) => [n]
                                              | None => []
                                              end) ds) ->
  fold_left collect ds o
  = (o ++ flat_map (fun d => match d with Some nv => [nv] | None => [] end) ds)%list.
Proof.
  revert o. induction ds as [|[[n x]|] ds IH]; intros o Hnd; simpl in *.
  - now rewrite app_nil_r.
  - assert (Hfresh : Js.get o n = None).
    { destruct (Js.get o n) as [y|] eqn:Hget; [|reflexivity].
      exfalso. apply get_Some_In in Hget.
      apply List.NoDup_remove_2 in Hnd. apply Hnd, in_or_app. left.
      change n with (fst (n, y)). now apply in_map. }
    rewrite (set_absent _ _ _ Hfresh), IH.
    + now rewrite <- app_assoc.
    + unfold Js.keys in *. rewrite map_app. simpl. rewrite <- app_assoc. exact Hnd.
  - now apply IH.
Qed.

Lemma found_names (ds : list (option (string * string))) :
  Js.keys (flat_map (fun d => match d with Some nv => [nv] | None => [] end) ds)
  = flat_map (fun d : option (string * string) =>
                match d with Some (n, _) => [n] | None => [] end) ds.
Proof.
  induction ds as [|[[n x]|] ds IH]; simpl; congruence.
Qed.

(** X3.  The object keeps the order of the batch: for a batch without
    repetition, its keys are the names for which a version was found, in
    the order of the batch. *)
Theorem batch_keeps_order
        (mavenDocs : string -> string -> list MavenDoc)
        (clojarsResults : string -> string -> list ClojarsItem)
        (arrival : list (list event) -> list event)
        (packages : list string) (releasesOnly : bool) :
  List.NoDup packages ->
  let fetch name :=
    fst (_fetchLatestVersion mavenDocs clojarsResults name releasesOnly) in
  Js.keys (fst (_findPackageVersions mavenDocs clojarsResults arrival packages
                                     releasesOnly))
  = List.filter (fun name => match fetch name with Some _ => true | None => false end)
                packages.
Proof.
  intros Hnd fetch. rewrite findPackageVersions_value. fold fetch.
  assert (Hnames :
            flat_map (fun d : option (string * string) =>
                        match d with Some (n, _) => [n] | None => [] end)
                     (map fetch packages)
            = List.filter (fun name => match fetch name with
                                       | Some _ => true | None => false end)
                          packages).
  { clear Hnd. induction packages as [|p ps IH]; simpl; [reflexivity|].
    destruct (fetch p) as [[n x]|] eqn:Hp; simpl; [|exact IH].
    apply fetched_name in Hp as ->. now rewrite IH. }
  rewrite collect_keys.
  - simpl. rewrite <- Hnames. apply found_names.
  - simpl. rewrite Hnames. now apply List.NoDup_filter.
Qed.

Lemma batch_keeps_order_witness :
  Js.keys (fst (_findPackageVersions exampleMaven exampleClojars inBatchOrder
                  ["weasel"; "no.such/package"; "org.clojure/clojure"] false))
  = ["weasel"; "org.clojure/clojure"].
Proof.
  apply (batch_keeps_order exampleMaven exampleClojars inBatchOrder
           ["weasel"; "no.such/package"; "org.clojure/clojure"] false).
  repeat constructor; simpl; intuition discriminate.
Defined.

Lemma findPackageVersions_events mavenDocs clojarsResults arrival packages releasesOnly :
  snd (_findPackageVersions mavenDocs clojarsResults arrival packages releasesOnly)
  = (flat_map (fun name =>
                 fst (snd (_fetchLatestVersion mavenDocs clojarsResults name
                                               releasesOnly)))
              packages,
     arrival (map (fun name =>
                     snd (snd (_fetchLatestVersion mavenDocs clojarsResults name
                                                   releasesOnly)))
                  packages)).
Proof.
  unfold _findPackageVersions, then_, all, resolved. simpl.
  rewrite app_nil_r, map_map. f_equal.
  induction packages as [|p ps IH]; simpl; [reflexivity|]. now rewrite IH.
Qed.

Lemma filter_Permutation {A : Type} (p : A -> bool) (l l' : list A) :
  Permutation l l' -> Permutation (List.filter p l) (List.filter p l').
Proof.
  induction 1 as [|x l l' _ IH|x y l|l l' l'' _ IH1 _ IH2]; simpl.
  - constructor.
  - destruct (p x); [now constructor | assumption].
  - destruct (p x), (p y); try reflexivity. constructor.
  - now transitivity (List.filter p l').
Qed.

Section BatchEvents.

Variable mavenDocs : string -> string -> list MavenDoc.
Variable clojarsResults : string -> string -> list ClojarsItem.
Variable releasesOnly : bool.

Lemma started_events (packages : list string) :
  flat_map (fun name =>
              fst (snd (_fetchLatestVersion mavenDocs clojarsResults name releasesOnly)))
           packages
  = map (fun name => QueryMaven (groupOf name) (artifactOf name)) packages.
Proof.
  induction packages as [|p ps IH]; cbn [flat_map map]; [reflexivity|].
  rewrite IH, fetchLatestVersion_cases. cbv zeta.
  destruct (truthy_version (mavenVersion _ _ _ _)); [reflexivity|].
  destruct (truthy_version (clojarsVersion _ _ _ _)); reflexivity.
Qed.

Lemma later_maven_queries (packages : list string) :
  List.filter isMavenQuery
    (concat (map (fun name =>
                    snd (snd (_fetchLatestVersion mavenDocs clojarsResults name
                                                  releasesOnly)))
                 packages))
  = [].
Proof.
  induction packages as [|p ps IH]; cbn [map concat]; [reflexivity|].
  rewrite List.filter_app, IH, fetchLatestVersion_cases. cbv zeta.
  destruct (truthy_version (mavenVersion _ _ _ _)); [reflexivity|].
  destruct (truthy_version (clojarsVersion _ _ _ _)); reflexivity.
Qed.

Lemma later_clojars_queries (packages : list string) :
  List.filter isClojarsQuery
    (concat (map (fun name =>
                    snd (snd (_fetchLatestVersion mavenDocs clojarsResults name
                                                  releasesOnly)))
                 packages))
  = map (fun name => QueryClojars (groupOf name) (artifactOf name))
        (List.filter
           (fun name =>
              negb (truthy_version
                      (mavenVersion mavenDocs (groupOf name) (artifactOf name)
                                    releasesOnly)))
           packages).
Proof.
  induction packages as [|p ps IH]; cbn [map concat List.filter]; [reflexivity|].
  rewrite List.filter_app, IH, fetchLatestVersion_cases. cbv zeta.
  destruct (truthy_version (mavenVersion _ _ _ _)); [reflexivity|].
  destruct (truthy_version (clojarsVersion _ _ _ _)); reflexivity.
Qed.

Lemma started_clojars_queries (packages : list string) :
  List.filter isClojarsQuery
    (map (fun name => QueryMaven (groupOf name) (artifactOf name)) packages)
  = [].
Proof. induction packages as [|p ps IH]; [reflexivity | exact IH]. Qed.

End BatchEvents.

(** X4.  Every name of a batch, repeated or not, is one query to Maven Central,
    sent when the batch is started, in the order of the batch, and no query
    to Maven Central is sent later.  Whatever the order in which the answers
    come, the queries to Clojars are one for each name that Maven Central has
    no version for, and none for another name. *)
Theorem batch_queries
        (mavenDocs : string -> string -> list MavenDoc)
        (clojarsResults : string -> string -> list ClojarsItem)
        (arrival : list (list event) -> list event)
        (packages : list string) (releasesOnly : bool) :
  (forall later, Permutation (arrival later) (concat later)) ->
  let batch :=
    _findPackageVersions mavenDocs clojarsResults arrival packages releasesOnly in
  fst (snd batch)
  = map (fun name => QueryMaven (groupOf name) (artifactOf name)) packages /\
  List.filter isMavenQuery (snd (snd batch)) = [] /\
  Permutation
    (List.filter isClojarsQuery (events batch))
    (map (fun name => QueryClojars (groupOf name) (artifactOf name))
         (List.filter
            (fun name =>
               negb (truthy_version
                       (mavenVersion mavenDocs (groupOf name) (artifactOf name)
                                     releasesOnly)))
            packages)).
Proof.
  intros Harrival batch. subst batch. unfold events.
  rewrite findPackageVersions_events. cbn [fst snd].
  rewrite started_events. split; [reflexivity|]. split.
  - apply Permutation_nil. symmetry.
    rewrite <- (later_maven_queries mavenDocs clojarsResults releasesOnly packages).
    apply filter_Permutation, Harrival.
  - rewrite List.filter_app, started_clojars_queries, app_nil_l.
    rewrite <- (later_clojars_queries mavenDocs clojarsResults releasesOnly packages).
    apply filter_Permutation, Harrival.
Qed.

Lemma batch_queries_witness :
  let batch :=
    _findPackageVersions exampleMaven exampleClojars inBatchOrder
      ["weasel"; "org.clojure/clojure"; "weasel"] false in
  fst (snd batch)
  = [QueryMaven "weasel" "weasel"; QueryMaven "org.clojure" "clojure";
     QueryMaven "weasel" "weasel"] /\
  List.filter isMavenQuery (snd (snd batch)) = [] /\
  Permutation
    (List.filter isClojarsQuery (events batch))
    [QueryClojars "weasel" "weasel"; QueryClojars "weasel" "weasel"].
Proof.
  apply (batch_queries exampleMaven exampleClojars inBatchOrder
           ["weasel"; "org.clojure/clojure"; "weasel"] false).
  intros later. reflexivity.
Defined.

(** ** Names and coordinates *)

Lemma split_slashless (s : string) : slashless s -> Js.split "/" s = [s].
Proof.
  unfold slashless. induction s as [|c s IH]; simpl; intros H; [reflexivity|].
  destruct (Ascii.eqb_spec c "/") as [-> | _]; [tauto|].
  rewrite IH by tauto. reflexivity.
Qed.

Lemma split_segment (g rest : string) :
  slashless g -> Js.split "/" (g +:+ "/" +:+ rest) = g :: Js.split "/" rest.
Proof.
  unfold slashless. induction g as [|c g IH]; intros H.
  - reflexivity.
  - rewrite append_cons. simpl in *.
    destruct (Ascii.eqb_spec c "/") as [-> | _]; [tauto|].
    rewrite IH by tauto. reflexivity.
Qed.

Lemma first_event mavenDocs clojarsResults name releasesOnly :
  hd_error (events (_fetchLatestVersion mavenDocs clojarsResults name releasesOnly))
  = Some (QueryMaven (groupOf name) (artifactOf name)).
Proof.
  rewrite fetchLatestVersion_cases. cbv zeta.
  destruct (truthy_version _); [reflexivity|].
  destruct (truthy_version _); reflexivity.
Qed.

(** X5.  The coordinate a name is looked up under: "group/artifact" is the group
    and the artifact; a name without a slash, or with nothing after the
    slash, is its own artifact; whatever follows a second slash is
    ignored. *)
Theorem lookup_coordinates
        (mavenDocs : string -> string -> list MavenDoc)
        (clojarsResults : string -> string -> list ClojarsItem)
        (releasesOnly : bool) (g a : string) :
  slashless g -> slashless a -> a <> "" ->
  let asked name :=
    hd_error (events (_fetchLatestVersion mavenDocs clojarsResults name releasesOnly)) in
  asked (g +:+ "/" +:+ a) = Some (QueryMaven g a) /\
  asked g = Some (QueryMaven g g) /\
  asked (g +:+ "/") = Some (QueryMaven g g) /\
  forall rest, asked (g +:+ "/" +:+ a +:+ "/" +:+ rest) = Some (QueryMaven g a).
Proof.
  intros Hg Ha Hne asked. subst asked. cbv beta.
  rewrite !first_event. unfold artifactOf, groupOf, Js.nth_or.
  repeat split.
  - rewrite split_segment, split_slashless by assumption. simpl.
    destruct a; [congruence | reflexivity].
  - rewrite split_slashless by assumption. reflexivity.
  - change (g +:+ "/") with (g +:+ "/" +:+ "").
    rewrite split_segment by assumption. reflexivity.
  - intros rest. rewrite first_event. unfold artifactOf, groupOf, Js.nth_or.
    rewrite !split_segment by assumption. simpl.
    destruct a; [congruence | reflexivity].
Qed.

Lemma lookup_coordinates_witness :
  hd_error (events (_fetchLatestVersion exampleMaven exampleClojars
                      ("org.clojure" +:+ "/" +:+ "clojure") false))
  = Some (QueryMaven "org.clojure" "clojure").
Proof.
  apply (lookup_coordinates exampleMaven exampleClojars false "org.clojure" "clojure").
  - unfold slashless. simpl. intuition discriminate.
  - unfold slashless. simpl. intuition discriminate.
  - discriminate.
Defined.

(** ** The fingerprint, again *)

Lemma hex_digit_range (x : Z) :
  In (Sha1.hex_digit (x mod 16))
     (list_ascii_of_string "0123456789abcdef").
Proof.
  unfold Sha1.hex_digit. apply nth_In. simpl.
  pose proof (Z.mod_pos_bound x 16). lia.
Qed.

(** X6.  The fingerprint is forty lower-case hexadecimal digits, for every
    dependency set and every sort. *)
Theorem fingerprint_format (sort : sorter) (c : Config) :
  String.length (_hashDepdendencies sort c) = 40%nat /\
  Forall (fun ch => In ch (list_ascii_of_string "0123456789abcdef"))
         (list_ascii_of_string (_hashDepdendencies sort c)).
Proof.
  unfold _hashDepdendencies, Sha1.hex.
  destruct (Sha1.digest _) as [[[[h0 h1] h2] h3] h4].
  split; [reflexivity|].
  unfold Sha1.hex_word. cbn [list_ascii_of_string].
  repeat (constructor; [apply hex_digit_range|]). constructor.
Qed.

(** X7.  With the sort of V8 up to version 6, which sorts an array of at most
    ten elements by insertion, the fingerprint of a dependency set of at
    most ten dependencies is the digest of its pairs in the order
    package.json has them. *)
Theorem fingerprint_in_insertion_order (c : Config) :
  List.NoDup (Js.keys (dependencies c)) ->
  (List.length (dependencies c) <= 10)%nat ->
  _hashDepdendencies InsertionSort c
  = Sha1.hex (Js.join_empty (map (fun d => fst d +:+ snd d) (dependencies c))).
Proof.
  intros Hnd _. unfold _hashDepdendencies.
  now rewrite InsertionSort_insertion_order.
Qed.

Lemma fingerprint_in_insertion_order_witness :
  _hashDepdendencies InsertionSort weaselFirst
  = Sha1.hex (Js.join_empty (map (fun d => fst d +:+ snd d) (dependencies weaselFirst))).
Proof.
  apply (fingerprint_in_insertion_order weaselFirst).
  - repeat constructor; simpl; intuition discriminate.
  - simpl. lia.
Defined.

(** ** The cache, again *)

(** X8.  [getClasspath] runs a command exactly when the cache is not hit, and
    then one command only, the Maven one. *)
Theorem maven_runs_exactly_on_a_miss
        (sort : sorter) (run : program) (c : Config) (w : world) :
  commands (snd (getClasspath sort run c w))
  = (commands w ++ (if cacheHit sort c w then [] else [classpathCommand c]))%list.
Proof.
  rewrite getClasspath_cases. destruct (cacheHit sort c w); simpl.
  - now rewrite app_nil_r.
  - rewrite recomputeClasspath_value. destruct (run _ _) as [[|] fs]; reflexivity.
Qed.

(** X9.  After a recomputation that succeeded with a classpath that is not
    empty, the next [getClasspath] for the same dependencies returns that
    classpath from the cache and runs nothing, whatever Maven would do. *)
Theorem second_call_is_served_from_the_cache
        (sort : sorter) (run run' : program) (c : Config) (w : world)
        (fs : gmap string string) (classpath : string) :
  cacheHit sort c w = false ->
  run (classpathCommand c) (<[_getPomXmlPath c := pomXml c]> (files w)) = (true, fs) ->
  fs !! classpathValueFile c = Some classpath ->
  classpath <> "" ->
  let w1 := snd (getClasspath sort run c w) in
  getClasspath sort run' c w1 = (Returned classpath, w1).
Proof.
  intros Hmiss Hrun Hv Hne w1. subst w1.
  rewrite (getClasspath_cases sort run), Hmiss, recomputeClasspath_value, Hrun, Hv.
  cbn [snd].
  rewrite getClasspath_cases.
  replace (cacheHit sort c _) with true.
  - cbn [files]. rewrite lookup_insert_ne by apply hash_file_not_value_file.
    now rewrite Hv.
  - symmetry. apply cacheHit_true. cbn [files]. split.
    + apply lookup_insert_eq.
    + rewrite lookup_insert_ne by apply hash_file_not_value_file. eauto.
Qed.

Lemma second_call_is_served_from_the_cache_witness :
  let w1 := snd (getClasspath InsertionSort (mavenWrites "a.jar") weaselFirst emptyWorld) in
  getClasspath InsertionSort mavenFails weaselFirst w1 = (Returned "a.jar", w1).
Proof.
  apply (second_call_is_served_from_the_cache InsertionSort (mavenWrites "a.jar")
           mavenFails weaselFirst emptyWorld
           (<[".cljsbuild/classpath.value" := "a.jar"]>
              (<[_getPomXmlPath weaselFirst := pomXml weaselFirst]> (files emptyWorld)))
           "a.jar").
  - vm_compute. reflexivity.
  - reflexivity.
  - vm_compute. reflexivity.
  - discriminate.
Defined.

(** X10.  When the Maven command succeeds but leaves no value file,
    [getClasspath] throws ENOENT for the value file, after it has written
    the fingerprint; the next call is a miss again. *)
Theorem fingerprint_is_written_before_the_value_is_read
        (sort : sorter) (run : program) (c : Config) (w : world)
        (fs : gmap string string) :
  cacheHit sort c w = false ->
  run (classpathCommand c) (<[_getPomXmlPath c := pomXml c]> (files w)) = (true, fs) ->
  fs !! classpathValueFile c = None ->
  let w1 := snd (getClasspath sort run c w) in
  fst (getClasspath sort run c w) = Thrown (ENOENT (classpathValueFile c)) /\
  files w1 !! classpathHashFile c = Some (_hashDepdendencies sort c) /\
  cacheHit sort c w1 = false.
Proof.
  intros Hmiss Hrun Hv w1. subst w1.
  rewrite getClasspath_cases, Hmiss, recomputeClasspath_value, Hrun, Hv.
  cbn [fst snd files]. split; [reflexivity|]. split.
  - apply lookup_insert_eq.
  - unfold cacheHit. cbn [files].
    rewrite (lookup_insert_ne _ (classpathHashFile c) (classpathValueFile c))
      by apply hash_file_not_value_file.
    rewrite Hv. apply andb_false_r.
Qed.

Lemma fingerprint_is_written_before_the_value_is_read_witness :
  let w1 := snd (getClasspath InsertionSort (fun _ fs => (true, fs)) weaselFirst emptyWorld) in
  fst (getClasspath InsertionSort (fun _ fs => (true, fs)) weaselFirst emptyWorld)
  = Thrown (ENOENT (classpathValueFile weaselFirst)) /\
  files w1 !! classpathHashFile weaselFirst
  = Some (_hashDepdendencies InsertionSort weaselFirst) /\
  cacheHit InsertionSort weaselFirst w1 = false.
Proof.
  apply (fingerprint_is_written_before_the_value_is_read InsertionSort
           (fun _ fs => (true, fs)) weaselFirst emptyWorld
           (<[_getPomXmlPath weaselFirst := pomXml weaselFirst]> (files emptyWorld))).
  - vm_compute. reflexivity.
  - reflexivity.
  - vm_compute. reflexivity.
Defined.

(** ** Running the build script *)

(** X11.  On a cache hit [_runBuildClj] without rlwrap runs one command, java
    with the cached classpath, the user.clj of the temporary directory and
    the sources on its class path; Maven is not run. *)
Theorem build_runs_java_on_the_cached_classpath
        (sort : sorter) (run : program) (c : Config) (src : string) (w : world)
        (classpath : string) :
  files w !! classpathHashFile c = Some (_hashDepdendencies sort c) ->
  files w !! classpathValueFile c = Some classpath ->
  classpath <> "" ->
  commands (snd (_runBuildClj sort run c src false w))
  = (commands w ++ [javaCommand c src classpath ""])%list.
Proof.
  intros Hh Hv Hne. unfold _runBuildClj, bind, ret. cbn [andb].
  assert (Hhit : getClasspath sort run c w = (Returned classpath, w)).
  { rewrite getClasspath_cases.
    replace (cacheHit sort c w) with true; [now rewrite Hv|].
    symmetry. apply cacheHit_true. eauto. }
  rewrite Hhit. unfold sh, execSync, javaCommand. cbn [join_colon].
  rewrite !append_assoc.
  destruct (run _ (files w)) as [[|] fs]; reflexivity.
Qed.

Lemma build_runs_java_on_the_cached_classpath_witness :
  commands (snd (_runBuildClj InsertionSort mavenFails weaselFirst "src" false
                   (cachedWorld (_hashDepdendencies InsertionSort weaselFirst) "a.jar")))
  = [javaCommand weaselFirst "src" "a.jar" ""].
Proof.
  apply (build_runs_java_on_the_cached_classpath InsertionSort mavenFails weaselFirst
           "src" (cachedWorld (_hashDepdendencies InsertionSort weaselFirst) "a.jar")
           "a.jar").
  - vm_compute. reflexivity.
  - vm_compute. reflexivity.
  - discriminate.
Defined.

Lemma isRlwrapAvailable_value (run : program) (w : world) :
  isRlwrapAvailable run w
  = (Returned (fst (run "which rlwraps" (files w))), afterWhich run true w).
Proof.
  unfold isRlwrapAvailable, try_catch, bind, execSync, ret, afterWhich.
  destruct (run "which rlwraps" (files w)) as [[|] fs]; reflexivity.
Qed.

(** [_runBuildClj] as the check for rlwrap, [getClasspath] and java, one
    after the other. *)
Lemma runBuildClj_cases
      (sort : sorter) (run : program) (c : Config) (src : string)
      (useRlwrap : bool) (w : world) :
  _runBuildClj sort run c src useRlwrap w
  = let rlwrap :=
      if useRlwrap && fst (run "which rlwraps" (files w)) then "rlwrap " else "" in
    match getClasspath sort run c (afterWhich run useRlwrap w) with
    | (Returned classpath, w2) => sh run (javaCommand c src classpath rlwrap) w2
    | (Thrown e, w2) => (Thrown e, w2)
    end.
Proof.
  unfold _runBuildClj, bind at 1. destruct useRlwrap.
  - rewrite isRlwrapAvailable_value. cbn [andb]. unfold bind.
    destruct (getClasspath _ _ _ _) as [[classpath|e] w2]; [|reflexivity].
    unfold javaCommand. cbn [join_colon]. now rewrite !append_assoc.
  - unfold ret. cbn [andb afterWhich]. unfold bind.
    destruct (getClasspath _ _ _ _) as [[classpath|e] w2]; [|reflexivity].
    unfold javaCommand. cbn [join_colon]. now rewrite !append_assoc.
Qed.

Lemma sh_commands (run : program) (command : string) (w : world) :
  commands (snd (sh run command w)) = (commands w ++ [command])%list.
Proof.
  unfold sh, execSync. destruct (run command (files w)) as [[|] fs]; reflexivity.
Qed.

(** X12.  When the classpath has to be recomputed and Maven fails,
    [_runBuildClj] throws Maven's failure, with or without rlwrap asked
    for: the commands it has run are the check for rlwrap, when asked for,
    and the Maven command, and java is not among them. *)
Theorem java_is_not_run_when_maven_fails
        (sort : sorter) (run : program) (c : Config) (src : string)
        (useRlwrap : bool) (w : world) (fs : gmap string string) :
  let w1 := afterWhich run useRlwrap w in
  cacheHit sort c w1 = false ->
  run (classpathCommand c) (<[_getPomXmlPath c := pomXml c]> (files w1)) = (false, fs) ->
  fst (_runBuildClj sort run c src useRlwrap w)
  = Thrown (ExecFailed (classpathCommand c)) /\
  commands (snd (_runBuildClj sort run c src useRlwrap w))
  = (commands w ++ (if useRlwrap then ["which rlwraps"] else [])
     ++ [classpathCommand c])%list.
Proof.
  intros w1 Hmiss Hrun. rewrite runBuildClj_cases. cbv zeta. fold w1.
  rewrite getClasspath_cases, Hmiss, recomputeClasspath_value, Hrun.
  split; [reflexivity|]. cbn [snd commands]. subst w1.
  destruct useRlwrap; cbn [afterWhich commands]; [|reflexivity].
  now rewrite <- app_assoc.
Qed.

Lemma java_is_not_run_when_maven_fails_witness :
  fst (_runBuildClj InsertionSort mavenFails weaselFirst "src" true emptyWorld)
  = Thrown (ExecFailed (classpathCommand weaselFirst)) /\
  commands (snd (_runBuildClj InsertionSort mavenFails weaselFirst "src" true emptyWorld))
  = ["which rlwraps"; classpathCommand weaselFirst].
Proof.
  apply (java_is_not_run_when_maven_fails InsertionSort mavenFails weaselFirst "src"
           true emptyWorld
           (<[_getPomXmlPath weaselFirst := pomXml weaselFirst]> (files emptyWorld))).
  - vm_compute. reflexivity.
  - reflexivity.
Defined.

(** X13.  With rlwrap asked for, [_runBuildClj] first runs [which rlwraps] (so
    spelled); a failure of it is not an error.  Whenever java is run, on a
    cache hit as well as after Maven has recomputed the classpath, rlwrap
    is put before java exactly when [which rlwraps] succeeded. *)
Theorem rlwrap_is_used_when_which_rlwraps_succeeds
        (sort : sorter) (run : program) (c : Config) (src : string) (w : world)
        (classpath : string) :
  let found := run "which rlwraps" (files w) in
  let w1 := World (snd found) (unlinks w) (commands w ++ ["which rlwraps"]) in
  let java := javaCommand c src classpath (if fst found then "rlwrap " else "") in
  let ran := commands (snd (_runBuildClj sort run c src true w)) in
  (cacheHit sort c w1 = true ->
   files w1 !! classpathValueFile c = Some classpath ->
   ran = (commands w ++ ["which rlwraps"; java])%list) /\
  (forall fs : gmap string string,
      cacheHit sort c w1 = false ->
      run (classpathCommand c) (<[_getPomXmlPath c := pomXml c]> (files w1)) = (true, fs) ->
      fs !! classpathValueFile c = Some classpath ->
      ran = (commands w ++ ["which rlwraps"; classpathCommand c; java])%list).
Proof.
  intros found w1 java ran. subst ran. rewrite runBuildClj_cases. cbv zeta.
  change (afterWhich run true w) with w1. cbn [andb]. fold found. fold java.
  rewrite getClasspath_cases. split.
  - intros Hhit Hv. rewrite Hhit, Hv. cbn [default].
    rewrite sh_commands. subst w1. cbn [commands]. now rewrite <- app_assoc.
  - intros fs Hmiss Hrun Hv. rewrite Hmiss, recomputeClasspath_value, Hrun, Hv.
    rewrite sh_commands. subst w1. cbn [commands]. now rewrite <- !app_assoc.
Qed.

Lemma rlwrap_is_used_when_which_rlwraps_succeeds_witness :
  commands (snd (_runBuildClj InsertionSort mavenFails weaselFirst "src" true
                   (cachedWorld (_hashDepdendencies InsertionSort weaselFirst) "a.jar")))
  = ["which rlwraps"; javaCommand weaselFirst "src" "a.jar" ""] /\
  commands (snd (_runBuildClj InsertionSort (mavenWrites "a.jar") weaselFirst "src" true
                   emptyWorld))
  = ["which rlwraps"; classpathCommand weaselFirst;
     javaCommand weaselFirst "src" "a.jar" "rlwrap "].
Proof.
  split.
  - apply (proj1 (rlwrap_is_used_when_which_rlwraps_succeeds InsertionSort mavenFails
                    weaselFirst "src"
                    (cachedWorld (_hashDepdendencies InsertionSort weaselFirst) "a.jar")
                    "a.jar")).
    + vm_compute. reflexivity.
    + vm_compute. reflexivity.
  - apply (proj2 (rlwrap_is_used_when_which_rlwraps_succeeds InsertionSort
                    (mavenWrites "a.jar") weaselFirst "src" emptyWorld "a.jar")
             (<[".cljsbuild/classpath.value" := "a.jar"]>
                (<[_getPomXmlPath weaselFirst := pomXml weaselFirst]>
                   (<[".cljsbuild/classpath.value" := "a.jar"]> (files emptyWorld))))).
    + vm_compute. reflexivity.
    + reflexivity.
    + vm_compute. reflexivity.
Defined.

(** ** The settings of package.json *)

Section ConfigFacts.
Import ConfigClass.

Lemma lookup_put (o : properties) k x k' :
  lookup (put o k x) k' = if String.eqb k k' then Some x else lookup o k'.
Proof.
  induction o as [|[k0 x0] o IH]; simpl.
  - reflexivity.
  - destruct (String.eqb_spec k0 k) as [-> | Hne]; simpl.
    + now destruct (String.eqb k k').
    + rewrite IH. destruct (String.eqb_spec k0 k') as [-> | _]; [|reflexivity].
      destruct (String.eqb_spec k k'); congruence.
Qed.

Lemma lookup_keys (o : properties) k :
  lookup o k = None <-> ~ In k (keys o).
Proof.
  induction o as [|[k0 x0] o IH]; simpl; [tauto|].
  destruct (String.eqb_spec k0 k) as [-> | Hne].
  - split; [discriminate | tauto].
  - rewrite IH. tauto.
Qed.

Lemma keys_put (o : properties) k x :
  keys (put o k x) = if hasOwnProperty o k then keys o else (keys o ++ [k])%list.
Proof.
  unfold hasOwnProperty. induction o as [|[k0 x0] o IH]; simpl; [reflexivity|].
  destruct (String.eqb_spec k0 k) as [-> | Hne]; simpl; [reflexivity|].
  rewrite IH. now destruct (lookup o k).
Qed.

Lemma lookup_assign (target source : properties) k :
  List.NoDup (keys source) ->
  lookup (assign target source) k
  = match lookup source k with
    | Some x => Some x
    | None => lookup target k
    end.
Proof.
  unfold assign. revert target.
  induction source as [|[k0 x0] source IH]; intros target Hnd; simpl; [reflexivity|].
  inversion Hnd as [|? ? Hnotin Hnd']; subst.
  rewrite IH by assumption. rewrite lookup_put.
  destruct (String.eqb_spec k0 k) as [-> | _]; [|reflexivity].
  apply lookup_keys in Hnotin. now rewrite Hnotin.
Qed.

Lemma assign_defaults : assign [] _getDefaults = _getDefaults.
Proof. reflexivity. Qed.

Lemma loadConfig_fresh (s : state) (data section : properties) :
  packageJson s = Some data -> _cljsbuild s = None ->
  sectionOf data = Some section ->
  _loadConfig s
  = (Done tt,
     State (Some data) (Some (assign _getDefaults section))
           (console s ++ loadWarnings data section)).
Proof.
  intros Hd Hc Hs. destruct s as [pj cb out]. simpl in *. subst pj cb.
  unfold _loadConfig, sectionOf, loadWarnings in *. simpl.
  unfold bind, _loadPackageJson. simpl.
  destruct (enumerate (lookup data "cljsbuild")) as [props| |] eqn:He;
    try discriminate; injection Hs as <-; rewrite ?assign_defaults.
  - destruct (hasOwnProperty data "cljsbuild"); simpl;
      destruct (difference _ _); simpl;
      unfold warn, print, ret; simpl;
      rewrite ?app_nil_r, <- ?app_assoc; reflexivity.
  - destruct (hasOwnProperty data "cljsbuild"); simpl;
      unfold warn, print, ret; simpl;
      rewrite ?app_nil_r, <- ?app_assoc; reflexivity.
Qed.

Lemma getConfig_loaded (s : state) (cfg : properties) (key : string) :
  _cljsbuild s = Some cfg ->
  getConfig key s
  = match lookup cfg key with
    | Some x =>
        if is_undefined (Some x)
        then logErrorAndExit ("undefined package.json value: cljsbuild." +:+ key) s
        else (Done x, s)
    | None =>
        if inherited key
        then (NotModelled, s)
        else logErrorAndExit ("undefined package.json value: cljsbuild." +:+ key) s
    end.
Proof.
  intros Hc. destruct s as [pj cb out]. simpl in *. subst cb.
  unfold getConfig, bind, _loadConfig. simpl. reflexivity.
Qed.

(** X14.  For a key that is not the name of a member of [Object.prototype],
    [getConfig] on a package.json that is not loaded yet gives the setting
    of the cljsbuild entry for the key, the default when the entry has
    none, and ends the process with code 1 when there is neither (as for
    main and dependencies, which have no default). *)
Theorem getConfig_setting
        (s : state) (data section : properties) (key : string) :
  packageJson s = Some data ->
  _cljsbuild s = None ->
  sectionOf data = Some section ->
  List.NoDup (keys section) ->
  ~ In key objectPrototype ->
  fst (getConfig key s)
  = match setting section key with
    | Some Undefined => Exited 1
    | Some x => Done x
    | None => Exited 1
    end.
Proof.
  intros Hd Hc Hs Hnd Hkey. unfold getConfig, bind.
  rewrite (loadConfig_fresh s data section Hd Hc Hs). cbn [_cljsbuild].
  rewrite lookup_assign by assumption. fold (setting section key).
  assert (Hown : inherited key = false).
  { unfold inherited. apply not_true_is_false. intros H. apply Hkey.
    apply existsb_exists in H as (k & Hin & Heq).
    apply String.eqb_eq in Heq. now subst. }
  rewrite Hown.
  destruct (setting section key) as [[]|]; reflexivity.
Qed.

Lemma getConfig_setting_witness :
  fst (getConfig "tempdir" exampleState)
  = Done (Str ".cljsbuild").
Proof.
  apply (getConfig_setting exampleState examplePackageJson
           [("main", Str "demo/core");
            ("optimizations", Str "advanced");
            ("dependencies",
             Obj [("org.clojure/clojure", Str "1.7.0");
                              ("weasel", Str "0.7.0")])]
           "tempdir").
  - reflexivity.
  - reflexivity.
  - reflexivity.
  - repeat constructor; simpl; intuition discriminate.
  - simpl. intuition discriminate.
Defined.


(** JSON comes back from [JSON.parse(JSON.stringify(x))] as it was. *)
Lemma jsonify_json (x : value) : is_json x = true -> jsonify x = x.
Proof.
  induction x as [| | | | |items IH|props IH] using value_induction;
    simpl; intros H; try reflexivity.
  - f_equal. induction IH as [|y l Hy _ IHl]; simpl in *; [reflexivity|].
    apply andb_true_iff in H as [H1 H2].
    rewrite IHl by assumption. rewrite (Hy H1).
    destruct y; try reflexivity. discriminate.
  - f_equal. induction IH as [|[k y] l Hy _ IHl]; simpl in *; [reflexivity|].
    apply andb_true_iff in H as [H1 H2].
    rewrite IHl by assumption. rewrite (Hy H1).
    destruct y; try reflexivity. discriminate.
Qed.

Lemma written_put (data : properties) (k : string) (x : value) :
  forallb (fun kx => is_json (snd kx)) data = true ->
  x <> Undefined ->
  written (Obj (put data k x)) = put data k (jsonify x).
Proof.
  intros Hjson Hx. unfold written. cbn [jsonify].
  induction data as [|[k0 x0] data IH]; simpl in *.
  - destruct x; try reflexivity. congruence.
  - apply andb_true_iff in Hjson as [H0 Hrest].
    assert (Hdata : flat_map (fun kx : string * value =>
                                match kx with
                                | (_, Undefined) => []
                                | (k1, x') => [(k1, jsonify x')]
                                end) data = data).
    { clear IH H0. induction data as [|[k1 x1] data IHd]; simpl in *; [reflexivity|].
      apply andb_true_iff in Hrest as [H1 H2]. rewrite (IHd H2).
      rewrite (jsonify_json _ H1). destruct x1; try reflexivity. discriminate. }
    destruct (String.eqb k0 k); simpl.
    + rewrite Hdata. destruct x; try reflexivity. congruence.
    + rewrite (IH Hrest). rewrite (jsonify_json _ H0).
      destruct x0; try reflexivity. discriminate.
Qed.

Lemma getConfig_done (s s1 : state) (key : string) (x : value) :
  getConfig key s = (Done x, s1) -> exists cfg, _cljsbuild s1 = Some cfg.
Proof.
  unfold getConfig, bind. destruct (_loadConfig s) as [[[]| | |] s']; try discriminate.
  destruct (_cljsbuild s') as [cfg|] eqn:Hc; [|discriminate].
  unfold logErrorAndExit.
  destruct (lookup cfg key) as [y|].
  - destruct (is_undefined (Some y)); [discriminate|].
    intros [= _ <-]. eauto.
  - destruct (inherited key); discriminate.
Qed.

(** X15.  The settings are read from package.json once: after a [getConfig] that
    returned, what later calls return does not depend on the file any
    more, whether it is changed or removed. *)
Theorem config_is_loaded_once
        (s s1 : state) (key key' : string) (x : value) (later : option properties) :
  getConfig key s = (Done x, s1) ->
  fst (getConfig key' (State later (_cljsbuild s1) (console s1)))
  = fst (getConfig key' s1).
Proof.
  intros H. apply getConfig_done in H as [cfg Hcfg].
  rewrite (getConfig_loaded _ cfg key') by exact Hcfg.
  rewrite (getConfig_loaded _ cfg key') by (rewrite Hcfg; reflexivity).
  destruct (lookup cfg key') as [y|].
  - now destruct (is_undefined (Some y)).
  - now destruct (inherited key').
Qed.

Lemma config_is_loaded_once_witness :
  fst (getConfig "main"
         (State None
                (_cljsbuild (snd (getConfig "tempdir" exampleState)))
                (console (snd (getConfig "tempdir" exampleState)))))
  = fst (getConfig "main" (snd (getConfig "tempdir" exampleState))).
Proof.
  apply (config_is_loaded_once exampleState (snd (getConfig "tempdir" exampleState))
           "tempdir" "main" (Str ".cljsbuild") None).
  vm_compute. reflexivity.
Defined.

Lemma hasOwnProperty_put (o : properties) k x k' :
  hasOwnProperty (put o k x) k' = String.eqb k k' || hasOwnProperty o k'.
Proof.
  unfold hasOwnProperty. rewrite lookup_put.
  destruct (String.eqb k k'); [reflexivity|]. reflexivity.
Qed.

Lemma hasOwnProperty_keys (o : properties) k :
  hasOwnProperty o k = true <-> In k (keys o).
Proof.
  unfold hasOwnProperty. destruct (lookup o k) eqn:H.
  - split; [|reflexivity]. intros _.
    destruct (in_dec string_dec k (keys o)) as [Hin | Hnot]; [exact Hin|].
    apply lookup_keys in Hnot. congruence.
  - apply lookup_keys in H. split; [discriminate | tauto].
Qed.

Lemma keys_assign (target source : properties) :
  List.NoDup (keys source) ->
  keys (assign target source)
  = (keys target
     ++ List.filter (fun k => negb (hasOwnProperty target k)) (keys source))%list.
Proof.
  unfold assign. revert target.
  induction source as [|[k0 x0] source IH]; intros target Hnd; simpl.
  - now rewrite app_nil_r.
  - inversion Hnd as [|? ? Hnotin Hnd']; subst.
    rewrite IH by assumption. rewrite keys_put.
    assert (Hfilter :
              List.filter (fun k => negb (hasOwnProperty (put target k0 x0) k)) (keys source)
              = List.filter (fun k => negb (hasOwnProperty target k)) (keys source)).
    { apply filter_ext_in. intros k Hin. rewrite hasOwnProperty_put.
      destruct (String.eqb_spec k0 k) as [-> | _]; [contradiction | reflexivity]. }
    rewrite Hfilter.
    destruct (hasOwnProperty target k0); simpl; [reflexivity|].
    now rewrite <- app_assoc.
Qed.

Lemma existsb_eqb (k : string) (l : list string) :
  existsb (String.eqb k) l = true <-> In k l.
Proof.
  rewrite existsb_exists. split.
  - intros (y & Hin & Heq). apply String.eqb_eq in Heq. now subst.
  - intros Hin. exists k. split; [assumption | apply String.eqb_refl].
Qed.

Lemma filter_all {A : Type} (p : A -> bool) (l : list A) :
  (forall a, In a l -> p a = true) -> List.filter p l = l.
Proof.
  induction l as [|a l IH]; simpl; intros H; [reflexivity|].
  rewrite (H a) by auto. f_equal. apply IH. auto.
Qed.

Lemma unknownKeys_of_section (section : properties) :
  List.NoDup (keys section) ->
  difference (keys (assign _getDefaults section)) (keys _getDefaults)
  = List.filter (fun k => negb (hasOwnProperty _getDefaults k)) (keys section).
Proof.
  intros Hnd. rewrite keys_assign by assumption.
  unfold difference. rewrite List.filter_app.
  replace (List.filter _ (keys _getDefaults)) with (@nil string) by reflexivity.
  rewrite app_nil_l. apply filter_all.
  intros k Hin. apply filter_In in Hin as [_ Hk].
  apply negb_true_iff in Hk. apply negb_true_iff.
  apply not_true_is_false. rewrite existsb_eqb, <- hasOwnProperty_keys. congruence.
Qed.

(** X16.  A key of the cljsbuild entry that is not one of the nine settings is
    served by [getConfig] all the same; loading prints one warning that
    names every such key, in the order of package.json. *)
Theorem unknown_setting_is_served_with_a_warning
        (s : state) (data section : properties) (key : string) (x : value) :
  packageJson s = Some data ->
  _cljsbuild s = None ->
  sectionOf data = Some section ->
  List.NoDup (keys section) ->
  lookup section key = Some x ->
  x <> Undefined ->
  hasOwnProperty _getDefaults key = false ->
  let unknown :=
    List.filter (fun k => negb (hasOwnProperty _getDefaults k)) (keys section) in
  fst (getConfig key s) = Done x /\
  In key unknown /\
  In (Warning ("unknown keys in package.json " +:+ quote +:+ "cljsbuild" +:+ quote
               +:+ ": " +:+ join_comma unknown))
     (console (snd (getConfig key s))).
Proof.
  intros Hd Hc Hs Hnd Hx Hdef Hkey unknown.
  assert (Hin : In key unknown).
  { subst unknown. apply filter_In. split.
    - apply hasOwnProperty_keys. unfold hasOwnProperty. now rewrite Hx.
    - now rewrite Hkey. }
  unfold getConfig, bind.
  rewrite (loadConfig_fresh s data section Hd Hc Hs). cbn [_cljsbuild].
  rewrite lookup_assign, Hx by assumption.
  assert (Hu : is_undefined (Some x) = false) by (destruct x; congruence || reflexivity).
  rewrite Hu. cbn [fst snd console]. split; [reflexivity|]. split; [exact Hin|].
  apply in_or_app. right. unfold loadWarnings. apply in_or_app. right.
  rewrite unknownKeys_of_section by assumption. fold unknown.
  destruct unknown as [|k l]; [contradiction|]. now left.
Qed.

Lemma unknown_setting_is_served_with_a_warning_witness :
  fst (getConfig "optimizations" exampleState) = Done (Str "advanced") /\
  In "optimizations" ["optimizations"] /\
  In (Warning ("unknown keys in package.json " +:+ quote +:+ "cljsbuild" +:+ quote
               +:+ ": " +:+ join_comma ["optimizations"]))
     (console (snd (getConfig "optimizations" exampleState))).
Proof.
  apply (unknown_setting_is_served_with_a_warning exampleState examplePackageJson
           [("main", Str "demo/core");
            ("optimizations", Str "advanced");
            ("dependencies",
             Obj [("org.clojure/clojure", Str "1.7.0"); ("weasel", Str "0.7.0")])]
           "optimizations" (Str "advanced")).
  - reflexivity.
  - reflexivity.
  - reflexivity.
  - repeat constructor; simpl; intuition discriminate.
  - reflexivity.
  - discriminate.
  - reflexivity.
Defined.

Lemma loadPackageJson_value (s : state) (data : properties) :
  packageJson s = Some data -> _loadPackageJson s = (Done data, s).
Proof. unfold _loadPackageJson. now intros ->. Qed.

Lemma keeps_ret {A : Type} (a : A) : keeps (ret a).
Proof. intros s. reflexivity. Qed.

Lemma keeps_bind {A B : Type} (m : C A) (k : A -> C B) :
  keeps m -> (forall a, keeps (k a)) -> keeps (bind m k).
Proof.
  intros Hm Hk s. unfold bind. specialize (Hm s).
  destruct (m s) as [[a| | |] s']; simpl in *; try assumption.
  now rewrite Hk.
Qed.

Lemma keeps_print (o : output) : keeps (print o).
Proof. intros s. reflexivity. Qed.

Lemma keeps_logErrorAndExit {A : Type} (text : string) :
  keeps (@logErrorAndExit A text).
Proof. intros s. reflexivity. Qed.

Lemma keeps_fail {A : Type} (r : result A) : keeps (fun s => (r, s)).
Proof. intros s. reflexivity. Qed.

Lemma keeps_catch {A : Type} (body : C A) :
  keeps body -> keeps (catch_logErrorAndExit body).
Proof.
  intros H s. unfold catch_logErrorAndExit. specialize (H s).
  destruct (body s) as [[a| | |] s']; simpl in *; assumption.
Qed.

Lemma keeps_loadPackageJson : keeps _loadPackageJson.
Proof.
  intros s. unfold _loadPackageJson.
  destruct (packageJson s) eqn:H; simpl; congruence.
Qed.

Lemma keeps_loadConfig : keeps _loadConfig.
Proof.
  intros s. unfold _loadConfig. destruct (_cljsbuild s); [reflexivity|].
  revert s. apply keeps_bind; [apply keeps_loadPackageJson|]. intros data.
  apply keeps_bind.
  - destruct (negb _); [apply keeps_print | apply keeps_ret].
  - intros _. destruct (enumerate _); try apply keeps_fail.
    + apply keeps_bind; [intros s; reflexivity|]. intros _.
      destruct (difference _ _); [apply keeps_ret | apply keeps_print].
    + apply keeps_bind; [intros s; reflexivity|]. intros _.
      destruct (difference _ _); [apply keeps_ret | apply keeps_print].
Qed.

Lemma keeps_getConfig (key : string) : keeps (getConfig key).
Proof.
  apply keeps_bind; [apply keeps_loadConfig|]. intros _ s.
  destruct (_cljsbuild s) as [cfg|]; [|reflexivity].
  destruct (lookup cfg key) as [x|].
  - now destruct (is_undefined (Some x)).
  - now destruct (inherited key).
Qed.

Lemma keeps_await {A : Type} (p : promise A) : keeps (await p).
Proof. intros s. reflexivity. Qed.

(** X17.  With [--dry-run] neither [init] nor [update] changes package.json,
    whatever it holds and whatever the registries answer. *)
Theorem dry_run_writes_nothing
        (mavenDocs : string -> string -> list MavenDoc)
        (clojarsResults : string -> string -> list ClojarsItem)
        (arrival : list (list event) -> list event)
        (opts : options) (s : state) :
  dryRun opts = true ->
  packageJson (snd (initConfig mavenDocs clojarsResults arrival opts s)) = packageJson s /\
  packageJson (snd (updateDependencies mavenDocs clojarsResults arrival opts s)) = packageJson s.
Proof.
  intros Hdry. split.
  - revert s. unfold initConfig. rewrite Hdry.
    apply keeps_bind; [apply keeps_loadPackageJson|]. intros data.
    apply keeps_bind.
    + destruct (match lookup data "cljsbuild" with Some _ => _ | None => _ end);
        [apply keeps_logErrorAndExit | apply keeps_ret].
    + intros _. apply keeps_bind; [apply keeps_await|]. intros found.
      apply keeps_catch. apply keeps_print.
  - revert s. unfold updateDependencies. rewrite Hdry.
    apply keeps_bind; [apply keeps_getConfig|]. intros current.
    destruct (enumerate (Some current)); try apply keeps_fail.
    apply keeps_bind; [apply keeps_await|]. intros fetched.
    apply keeps_catch. destruct (keys _); [apply keeps_print|].
    apply keeps_bind; [apply keeps_print|]. intros _.
    apply keeps_bind; [apply keeps_print|]. intros _. apply keeps_ret.
Qed.

Lemma dry_run_writes_nothing_witness :
  packageJson (snd (initConfig exampleMaven exampleClojars inBatchOrder
                      {| releasesOnly := true; cider := true; dryRun := true |}
                      exampleState))
  = packageJson exampleState /\
  packageJson (snd (updateDependencies exampleMaven exampleClojars inBatchOrder
                      {| releasesOnly := true; cider := true; dryRun := true |}
                      exampleState))
  = packageJson exampleState.
Proof.
  apply (dry_run_writes_nothing exampleMaven exampleClojars inBatchOrder
           {| releasesOnly := true; cider := true; dryRun := true |} exampleState).
  reflexivity.
Defined.

(** What [_updatePackageJson] does at the address the program uses. *)
Lemma updatePackageJson_cljsbuild (s : state) (data : properties) (x : value) :
  packageJson s = Some data ->
  forallb (fun kx => is_json (snd kx)) data = true ->
  x <> Undefined ->
  _updatePackageJson ["cljsbuild"] x s
  = _loadConfig (State (Some (put data "cljsbuild" (jsonify x))) None (console s)).
Proof.
  intros Hd Hjson Hx. unfold _updatePackageJson, bind.
  change (List.removelast ["cljsbuild"]) with (@nil string).
  change (List.last ["cljsbuild"] "undefined") with "cljsbuild".
  rewrite (loadPackageJson_value s data Hd).
  cbn [assignAt]. now rewrite written_put.
Qed.

(** X18.  [_updatePackageJson(['cljsbuild'], x)] replaces the cljsbuild entry of
    package.json by [x] as JSON writes it; what the entry held is gone;
    every other entry keeps its value, and the entries keep their order.
    The settings are loaded anew. *)
Theorem updatePackageJson_replaces_the_entry
        (s : state) (data : properties) (x : value) :
  packageJson s = Some data ->
  forallb (fun kx => is_json (snd kx)) data = true ->
  x <> Undefined ->
  let after := put data "cljsbuild" (jsonify x) in
  packageJson (snd (_updatePackageJson ["cljsbuild"] x s)) = Some after /\
  lookup after "cljsbuild" = Some (jsonify x) /\
  (forall k, k <> "cljsbuild" -> lookup after k = lookup data k) /\
  keys after
  = (if hasOwnProperty data "cljsbuild" then keys data
     else keys data ++ ["cljsbuild"])%list.
Proof.
  intros Hd Hjson Hx after.
  rewrite (updatePackageJson_cljsbuild s data x Hd Hjson Hx).
  rewrite keeps_loadConfig. cbn [packageJson]. split; [reflexivity|].
  subst after. split; [|split].
  - rewrite lookup_put. now rewrite String.eqb_refl.
  - intros k Hk. rewrite lookup_put.
    destruct (String.eqb_spec "cljsbuild" k); congruence.
  - apply keys_put.
Qed.

Lemma updatePackageJson_replaces_the_entry_witness :
  let after := put examplePackageJson "cljsbuild" (jsonify (Obj [("main", Str "x/core")])) in
  packageJson (snd (_updatePackageJson ["cljsbuild"] (Obj [("main", Str "x/core")])
                      exampleState)) = Some after /\
  lookup after "cljsbuild" = Some (jsonify (Obj [("main", Str "x/core")])) /\
  (forall k, k <> "cljsbuild" -> lookup after k = lookup examplePackageJson k) /\
  keys after
  = (if hasOwnProperty examplePackageJson "cljsbuild" then keys examplePackageJson
     else keys examplePackageJson ++ ["cljsbuild"])%list.
Proof.
  apply (updatePackageJson_replaces_the_entry exampleState examplePackageJson
           (Obj [("main", Str "x/core")])).
  - reflexivity.
  - reflexivity.
  - discriminate.
Defined.

Lemma assign_fresh (target source : properties) :
  List.NoDup (keys target ++ keys source) ->
  assign target source = (target ++ source)%list.
Proof.
  unfold assign. revert target.
  induction source as [|[k0 x0] source IH]; intros target Hnd; simpl.
  - now rewrite app_nil_r.
  - assert (Hfresh : put target k0 x0 = (target ++ [(k0, x0)])%list).
    { apply List.NoDup_remove_2 in Hnd.
      assert (Hnot : ~ In k0 (keys target)) by (intros H; apply Hnd, in_or_app; auto).
      clear - Hnot. induction target as [|[k1 x1] target IHt]; simpl in *; [reflexivity|].
      destruct (String.eqb_spec k1 k0) as [-> | _]; [tauto|].
      f_equal. apply IHt. tauto. }
    rewrite Hfresh, IH.
    + now rewrite <- app_assoc.
    + unfold keys in *. rewrite map_app. simpl. rewrite <- app_assoc. exact Hnd.
Qed.

Lemma lookup_json (o : properties) k x :
  forallb (fun kx => is_json (snd kx)) o = true ->
  lookup o k = Some x -> is_json x = true.
Proof.
  induction o as [|[k0 x0] o IH]; simpl; [discriminate|].
  intros H. apply andb_true_iff in H as [H0 H1].
  destruct (String.eqb k0 k); [congruence | auto].
Qed.

Lemma properties_eq (o1 o2 : properties) :
  keys o1 = keys o2 -> List.NoDup (keys o1) ->
  (forall k, lookup o1 k = lookup o2 k) -> o1 = o2.
Proof.
  revert o2. induction o1 as [|[k1 x1] o1 IH]; intros [|[k2 x2] o2] Hk Hnd Hl;
    simpl in *; try discriminate; [reflexivity|].
  injection Hk as -> Hk. inversion Hnd as [|? ? Hnotin Hnd']; subst.
  pose proof (Hl k2) as H2. rewrite String.eqb_refl in H2. injection H2 as ->.
  f_equal. apply IH; try assumption.
  intros k. specialize (Hl k).
  destruct (String.eqb_spec k2 k) as [-> | _]; [|assumption].
  pose proof Hnotin as Hnotin2.
  apply lookup_keys in Hnotin. rewrite Hnotin. symmetry. apply lookup_keys.
  unfold keys in *. now rewrite <- Hk.
Qed.

Lemma lookup_tabulate (h : string -> value) (l : list string) (k : string) :
  lookup (map (fun n => (n, h n)) l) k
  = if existsb (String.eqb k) l then Some (h k) else None.
Proof.
  induction l as [|n l IH]; simpl; [reflexivity|].
  rewrite (String.eqb_sym k n).
  destruct (String.eqb_spec n k) as [-> | _]; [reflexivity | exact IH].
Qed.

Lemma lookup_revalued (g : string -> value -> value) (o : properties) (k : string) :
  lookup (map (fun kx => (fst kx, g (fst kx) (snd kx))) o) k
  = option_map (g k) (lookup o k).
Proof.
  induction o as [|[k0 x0] o IH]; simpl; [reflexivity|].
  destruct (String.eqb_spec k0 k) as [-> | _]; [reflexivity | exact IH].
Qed.

Lemma existsb_filter (p : string -> bool) (l : list string) (k : string) :
  existsb (String.eqb k) (List.filter p l) = p k && existsb (String.eqb k) l.
Proof.
  induction l as [|n l IH]; simpl; [now rewrite andb_false_r|].
  destruct (p n) eqn:Hn; simpl; rewrite IH.
  - destruct (String.eqb_spec k n) as [-> | _]; [now rewrite Hn | reflexivity].
  - destruct (String.eqb_spec k n) as [-> | _]; [now rewrite Hn | reflexivity].
Qed.

Lemma filter_none {A : Type} (p : A -> bool) (l : list A) :
  (forall a, In a l -> p a = false) -> List.filter p l = [].
Proof.
  induction l as [|a l IH]; simpl; intros H; [reflexivity|].
  rewrite (H a) by auto. apply IH. auto.
Qed.

(** The object that [updateDependencies] writes as dependencies. *)
Lemma merged_dependencies (current : properties) (fetched : Js.object) :
  List.NoDup (keys current) ->
  assign (assign [] current)
    (assign []
       (map (fun packageName =>
               (packageName,
                match Js.get fetched packageName with
                | Some ver => Str ver
                | None => Undefined
                end))
            (List.filter (isUpdated current fetched) (keys current))))
  = refreshed current fetched.
Proof.
  intros Hnd.
  set (pairs := map _ (List.filter _ _)).
  assert (Hkeys : keys pairs = List.filter (isUpdated current fetched) (keys current)).
  { subst pairs. unfold keys at 1. rewrite map_map. apply map_id. }
  assert (Hpairs : List.NoDup (keys pairs)).
  { rewrite Hkeys. now apply List.NoDup_filter. }
  rewrite (assign_fresh [] current), (assign_fresh [] pairs) by assumption.
  cbn [app].
  assert (Hrk : keys (refreshed current fetched) = keys current).
  { unfold refreshed, keys. rewrite map_map. reflexivity. }
  apply properties_eq.
  - rewrite keys_assign, Hrk by assumption.
    rewrite filter_none; [now rewrite app_nil_r|].
    intros k Hin. rewrite Hkeys in Hin. apply filter_In in Hin as [Hin _].
    apply negb_false_iff. now apply hasOwnProperty_keys.
  - rewrite keys_assign by assumption.
    rewrite filter_none; [now rewrite app_nil_r|].
    intros k Hin. rewrite Hkeys in Hin. apply filter_In in Hin as [Hin _].
    apply negb_false_iff. now apply hasOwnProperty_keys.
  - intros k. rewrite lookup_assign by assumption.
    unfold refreshed.
    rewrite (lookup_revalued
               (fun n x => if isUpdated current fetched n
                           then Str (template (Js.get fetched n)) else x)).
    subst pairs. rewrite lookup_tabulate, existsb_filter.
    destruct (isUpdated current fetched k) eqn:Hup; simpl.
    + destruct (lookup current k) as [x|] eqn:Hl; simpl.
      * replace (existsb (String.eqb k) (keys current)) with true.
        -- unfold isUpdated in Hup. now destruct (Js.get fetched k).
        -- symmetry. apply existsb_eqb, hasOwnProperty_keys.
           unfold hasOwnProperty. now rewrite Hl.
      * replace (existsb (String.eqb k) (keys current)) with false; [reflexivity|].
        symmetry. apply not_true_is_false. rewrite existsb_eqb.
        now apply lookup_keys.
    + now destruct (lookup current k).
Qed.

Lemma refreshed_json (current : properties) (fetched : Js.object) :
  forallb (fun kx => is_json (snd kx)) current = true ->
  forallb (fun kx => is_json (snd kx)) (refreshed current fetched) = true.
Proof.
  unfold refreshed. generalize (isUpdated current fetched). intros p.
  induction current as [|[k x] current IH]; simpl; [reflexivity|].
  intros H. apply andb_true_iff in H as [H0 H1]. rewrite (IH H1).
  rewrite andb_true_r. destruct (p k); [reflexivity | exact H0].
Qed.

Lemma getConfig_fresh (s : state) (data section : properties) (key : string) (x : value) :
  packageJson s = Some data -> _cljsbuild s = None ->
  sectionOf data = Some section -> List.NoDup (keys section) ->
  setting section key = Some x -> is_undefined (Some x) = false ->
  getConfig key s
  = (Done x,
     State (Some data) (Some (assign _getDefaults section))
           (console s ++ loadWarnings data section)).
Proof.
  intros Hd Hc Hs Hnd Hx Hu. unfold getConfig, bind.
  rewrite (loadConfig_fresh s data section Hd Hc Hs). cbn [_cljsbuild].
  rewrite lookup_assign by assumption. fold (setting section key).
  now rewrite Hx, Hu.
Qed.

Lemma loadConfig_section (data section : properties) (out : list output) :
  lookup data "cljsbuild" = Some (Obj section) ->
  fst (_loadConfig (State (Some data) None out)) = Done tt.
Proof.
  intros H.
  rewrite (loadConfig_fresh _ data section); try reflexivity.
  unfold sectionOf. now rewrite H.
Qed.

(** X19.  An update that is written replaces the cljsbuild entry of package.json
    by an object with the dependencies alone: the other settings of the
    entry (main, target, ...) are no longer in the file.  The dependencies
    keep their names and their order; a name has the fetched version when a
    version was fetched that is not the current one, and its current value
    otherwise. *)
Theorem update_replaces_the_section
        (mavenDocs : string -> string -> list MavenDoc)
        (clojarsResults : string -> string -> list ClojarsItem)
        (arrival : list (list event) -> list event)
        (opts : options) (s : state) (data section current : properties) :
  packageJson s = Some data ->
  _cljsbuild s = None ->
  forallb (fun kx => is_json (snd kx)) data = true ->
  lookup data "cljsbuild" = Some (Obj section) ->
  List.NoDup (keys section) ->
  lookup section "dependencies" = Some (Obj current) ->
  List.NoDup (keys current) ->
  dryRun opts = false ->
  let fetched :=
    fst (_findPackageVersions mavenDocs clojarsResults arrival (keys current)
                              (releasesOnly opts)) in
  existsb (isUpdated current fetched) (keys current) = true ->
  fst (updateDependencies mavenDocs clojarsResults arrival opts s) = Done tt /\
  packageJson (snd (updateDependencies mavenDocs clojarsResults arrival opts s))
  = Some (put data "cljsbuild"
              (Obj [("dependencies", Obj (refreshed current fetched))])).
Proof.
  intros Hd Hc Hjson Hsec Hnd Hdeps Hndc Hdry fetched Hsome.
  assert (Hjs : is_json (Obj current) = true).
  { apply (lookup_json section "dependencies"); [|assumption].
    apply (lookup_json data "cljsbuild" (Obj section)); assumption. }
  assert (Hr : jsonify (Obj [("dependencies", Obj (refreshed current fetched))])
               = Obj [("dependencies", Obj (refreshed current fetched))]).
  { apply jsonify_json. cbn [is_json forallb snd].
    rewrite refreshed_json; [reflexivity | exact Hjs]. }
  assert (H : exists st,
             updateDependencies mavenDocs clojarsResults arrival opts s = (Done tt, st) /\
             packageJson st
             = Some (put data "cljsbuild"
                         (Obj [("dependencies", Obj (refreshed current fetched))]))).
  2: { destruct H as (st & -> & Hst). auto. }
  unfold updateDependencies, bind at 1.
  rewrite (getConfig_fresh s data section "dependencies" (Obj current));
    try assumption; try reflexivity.
  2: { unfold sectionOf. now rewrite Hsec. }
  2: { unfold setting. now rewrite Hdeps. }
  cbn [enumerate]. unfold bind at 1, await at 1. cbn [fst snd].
  fold fetched. rewrite Hdry.
  rewrite merged_dependencies by assumption.
  set (pairs := map _ (List.filter (isUpdated current fetched) (keys current))).
  assert (Hkeys : keys pairs = List.filter (isUpdated current fetched) (keys current)).
  { subst pairs. unfold keys at 1. rewrite map_map. apply map_id. }
  rewrite (assign_fresh [] pairs)
    by (cbn [keys map app]; fold (keys pairs); rewrite Hkeys; now apply List.NoDup_filter).
  cbn [app]. rewrite Hkeys.
  destruct (List.filter (isUpdated current fetched) (keys current)) as [|n names] eqn:Hf.
  { exfalso. apply existsb_exists in Hsome as (n & Hin & Hn).
    assert (In n []) by (rewrite <- Hf; apply filter_In; auto). contradiction. }
  unfold catch_logErrorAndExit, bind, log, print. cbn [packageJson _cljsbuild console].
  match goal with
  | |- context [_updatePackageJson ?a ?x ?st] =>
      rewrite (updatePackageJson_cljsbuild st data x)
  end; try assumption; try reflexivity; try discriminate.
  rewrite Hr.
  match goal with
  | |- context [_loadConfig (State ?pj None ?out)] =>
      pose proof (keeps_loadConfig (State pj None out)) as Hkeep;
      assert (Hdone : fst (_loadConfig (State pj None out)) = Done tt)
        by (apply (loadConfig_section _ [("dependencies", Obj (refreshed current fetched))]);
            rewrite lookup_put; now rewrite String.eqb_refl);
      destruct (_loadConfig (State pj None out)) as [r st'] eqn:Hload
  end.
  cbn [packageJson snd fst console] in *. subst r.
  eexists. split; [reflexivity|]. cbn [packageJson]. exact Hkeep.
Qed.

Lemma update_replaces_the_section_witness :
  let fetched :=
    fst (_findPackageVersions exampleMaven exampleClojars inBatchOrder
           (keys [("org.clojure/clojure", Str "1.7.0"); ("weasel", Str "0.7.0")])
           (releasesOnly releasesWritten)) in
  fst (updateDependencies exampleMaven exampleClojars inBatchOrder releasesWritten exampleState)
  = Done tt /\
  packageJson (snd (updateDependencies exampleMaven exampleClojars inBatchOrder releasesWritten
                      exampleState))
  = Some (put examplePackageJson "cljsbuild"
              (Obj [("dependencies",
                     Obj (refreshed [("org.clojure/clojure", Str "1.7.0");
                                     ("weasel", Str "0.7.0")] fetched))])).
Proof.
  apply (update_replaces_the_section exampleMaven exampleClojars inBatchOrder releasesWritten
           exampleState examplePackageJson
           [("main", Str "demo/core");
            ("optimizations", Str "advanced");
            ("dependencies",
             Obj [("org.clojure/clojure", Str "1.7.0"); ("weasel", Str "0.7.0")])]
           [("org.clojure/clojure", Str "1.7.0"); ("weasel", Str "0.7.0")]).
  - reflexivity.
  - reflexivity.
  - reflexivity.
  - reflexivity.
  - repeat constructor; simpl; intuition discriminate.
  - reflexivity.
  - repeat constructor; simpl; intuition discriminate.
  - reflexivity.
  - vm_compute. reflexivity.
Defined.

(** X20.  An update that finds nothing newer prints that and leaves package.json
    as it is, also without [--dry-run]. *)
Theorem update_without_news_writes_nothing
        (mavenDocs : string -> string -> list MavenDoc)
        (clojarsResults : string -> string -> list ClojarsItem)
        (arrival : list (list event) -> list event)
        (opts : options) (s : state) (data section current : properties) :
  packageJson s = Some data ->
  _cljsbuild s = None ->
  lookup data "cljsbuild" = Some (Obj section) ->
  List.NoDup (keys section) ->
  lookup section "dependencies" = Some (Obj current) ->
  let fetched :=
    fst (_findPackageVersions mavenDocs clojarsResults arrival (keys current)
                              (releasesOnly opts)) in
  existsb (isUpdated current fetched) (keys current) = false ->
  let after := snd (updateDependencies mavenDocs clojarsResults arrival opts s) in
  fst (updateDependencies mavenDocs clojarsResults arrival opts s) = Done tt /\
  packageJson after = Some data /\
  List.last (console after) (Line "") = Line "no updates found".
Proof.
  intros Hd Hc Hsec Hnd Hdeps fetched Hnone.
  assert (H : exists out,
             updateDependencies mavenDocs clojarsResults arrival opts s
             = (Done tt,
                State (Some data) (Some (assign _getDefaults section))
                      (out ++ [Line "no updates found"]))).
  2: { destruct H as (out & ->). cbn [fst snd packageJson console].
       split; [reflexivity|]. split; [reflexivity|]. apply List.last_last. }
  unfold updateDependencies, bind at 1.
  rewrite (getConfig_fresh s data section "dependencies" (Obj current));
    try assumption; try reflexivity.
  2: { unfold sectionOf. now rewrite Hsec. }
  2: { unfold setting. now rewrite Hdeps. }
  cbn [enumerate]. unfold bind at 1, await at 1. cbn [fst snd].
  fold fetched.
  rewrite filter_none.
  - cbn [map assign fold_left keys]. unfold catch_logErrorAndExit, log, print.
    cbn [packageJson _cljsbuild console]. eexists. reflexivity.
  - intros n Hin. apply not_true_is_false. intros Hn.
    assert (existsb (isUpdated current fetched) (keys current) = true)
      by (apply existsb_exists; eauto).
    congruence.
Qed.

Lemma update_without_news_writes_nothing_witness :
  let after :=
    snd (updateDependencies exampleMaven exampleClojars inBatchOrder
           {| releasesOnly := true; cider := false; dryRun := false |}
           (State (Some [("cljsbuild",
                          Obj [("dependencies", Obj [("weasel", Str "0.7.0")])])])
                  None [])) in
  fst (updateDependencies exampleMaven exampleClojars inBatchOrder
         {| releasesOnly := true; cider := false; dryRun := false |}
         (State (Some [("cljsbuild",
                        Obj [("dependencies", Obj [("weasel", Str "0.7.0")])])])
                None [])) = Done tt /\
  packageJson after
  = Some [("cljsbuild", Obj [("dependencies", Obj [("weasel", Str "0.7.0")])])] /\
  List.last (console after) (Line "") = Line "no updates found".
Proof.
  apply (update_without_news_writes_nothing exampleMaven exampleClojars inBatchOrder
           {| releasesOnly := true; cider := false; dryRun := false |}
           (State (Some [("cljsbuild",
                          Obj [("dependencies", Obj [("weasel", Str "0.7.0")])])])
                  None [])
           [("cljsbuild", Obj [("dependencies", Obj [("weasel", Str "0.7.0")])])]
           [("dependencies", Obj [("weasel", Str "0.7.0")])]
           [("weasel", Str "0.7.0")]).
  - reflexivity.
  - reflexivity.
  - reflexivity.
  - repeat constructor; simpl; intuition discriminate.
  - reflexivity.
  - vm_compute. reflexivity.
Defined.

(** X21.  [init] refuses a package.json whose cljsbuild entry already has
    dependencies, an empty object included: the process ends with code 1
    before any registry is asked, and nothing is written. *)
Theorem init_refuses_existing_dependencies
        (mavenDocs : string -> string -> list MavenDoc)
        (clojarsResults : string -> string -> list ClojarsItem)
        (arrival : list (list event) -> list event)
        (opts : options) (s : state) (data section : properties) (existing : value) :
  packageJson s = Some data ->
  lookup data "cljsbuild" = Some (Obj section) ->
  lookup section "dependencies" = Some existing ->
  truthy existing = true ->
  initConfig mavenDocs clojarsResults arrival opts s
  = (Exited 1,
     State (packageJson s) (_cljsbuild s)
           (console s ++ [Error "package.json cljsbuild.dependencies does already exist"])).
Proof.
  intros Hd Hsec Hdeps Htruthy. unfold initConfig, bind.
  rewrite (loadPackageJson_value s data Hd), Hsec.
  cbn [truthy member andb]. now rewrite Hdeps, Htruthy.
Qed.

Lemma init_refuses_existing_dependencies_witness :
  initConfig exampleMaven exampleClojars inBatchOrder releasesWritten
    (State (Some [("cljsbuild", Obj [("dependencies", Obj [])])]) None [])
  = (Exited 1,
     State (Some [("cljsbuild", Obj [("dependencies", Obj [])])]) None
           [Error "package.json cljsbuild.dependencies does already exist"]).
Proof.
  apply (init_refuses_existing_dependencies exampleMaven exampleClojars inBatchOrder releasesWritten
           (State (Some [("cljsbuild", Obj [("dependencies", Obj [])])]) None [])
           [("cljsbuild", Obj [("dependencies", Obj [])])]
           [("dependencies", Obj [])] (Obj [])).
  - reflexivity.
  - reflexivity.
  - reflexivity.
  - reflexivity.
Defined.

Lemma versions_json (o : Js.object) :
  forallb (fun kx => is_json (snd kx)) (versions o) = true.
Proof. induction o as [|[k x] o IH]; simpl; [reflexivity | exact IH]. Qed.

(** X22.  An [init] that is written replaces the cljsbuild entry by the
    placeholder for main and the versions found for the default packages:
    a main that package.json had is overwritten, every other setting of the
    entry is dropped. *)
Theorem init_writes_the_section
        (mavenDocs : string -> string -> list MavenDoc)
        (clojarsResults : string -> string -> list ClojarsItem)
        (arrival : list (list event) -> list event)
        (opts : options) (s : state) (data : properties) :
  packageJson s = Some data ->
  forallb (fun kx => is_json (snd kx)) data = true ->
  hasDependencies data = false ->
  dryRun opts = false ->
  let found :=
    fst (_findPackageVersions mavenDocs clojarsResults arrival
                              (defaultPackages (cider opts)) (releasesOnly opts)) in
  fst (initConfig mavenDocs clojarsResults arrival opts s) = Done tt /\
  packageJson (snd (initConfig mavenDocs clojarsResults arrival opts s))
  = Some (put data "cljsbuild"
              (Obj [("main", Str "<add-your-namespace-here>/core");
                    ("dependencies", Obj (versions found))])).
Proof.
  intros Hd Hjson Hno Hdry found.
  assert (Hr : jsonify (Obj [("main", Str "<add-your-namespace-here>/core");
                             ("dependencies", Obj (versions found))])
               = Obj [("main", Str "<add-your-namespace-here>/core");
                      ("dependencies", Obj (versions found))]).
  { apply jsonify_json. cbn [is_json forallb snd]. now rewrite versions_json. }
  assert (H : exists st,
             initConfig mavenDocs clojarsResults arrival opts s = (Done tt, st) /\
             packageJson st
             = Some (put data "cljsbuild"
                         (Obj [("main", Str "<add-your-namespace-here>/core");
                               ("dependencies", Obj (versions found))]))).
  2: { destruct H as (st & -> & Hst). auto. }
  unfold initConfig, bind at 1.
  rewrite (loadPackageJson_value s data Hd).
  unfold hasDependencies in Hno. rewrite Hno.
  unfold bind at 1, ret at 1. unfold bind at 1, await at 1. cbn [fst snd].
  fold found. rewrite Hdry.
  unfold catch_logErrorAndExit, bind, log, print. cbn [packageJson _cljsbuild console].
  match goal with
  | |- context [_updatePackageJson ?a ?x ?st] =>
      rewrite (updatePackageJson_cljsbuild st data x)
  end; try assumption; try reflexivity; try discriminate.
  rewrite Hr.
  match goal with
  | |- context [_loadConfig (State ?pj None ?out)] =>
      pose proof (keeps_loadConfig (State pj None out)) as Hkeep;
      assert (Hdone : fst (_loadConfig (State pj None out)) = Done tt)
        by (apply (loadConfig_section _
                     [("main", Str "<add-your-namespace-here>/core");
                      ("dependencies", Obj (versions found))]);
            rewrite lookup_put; now rewrite String.eqb_refl);
      destruct (_loadConfig (State pj None out)) as [r st'] eqn:Hload
  end.
  cbn [packageJson snd fst console] in *. subst r.
  eexists. split; [reflexivity|]. cbn [packageJson]. exact Hkeep.
Qed.

Lemma init_writes_the_section_witness :
  let found :=
    fst (_findPackageVersions exampleMaven exampleClojars inBatchOrder
           (defaultPackages (cider releasesWritten)) (releasesOnly releasesWritten)) in
  fst (initConfig exampleMaven exampleClojars inBatchOrder releasesWritten
         (State (Some [("name", Str "demo"); ("cljsbuild", Obj [("main", Str "demo/core")])])
                None [])) = Done tt /\
  packageJson
    (snd (initConfig exampleMaven exampleClojars inBatchOrder releasesWritten
            (State (Some [("name", Str "demo");
                          ("cljsbuild", Obj [("main", Str "demo/core")])])
                   None [])))
  = Some (put [("name", Str "demo"); ("cljsbuild", Obj [("main", Str "demo/core")])]
              "cljsbuild"
              (Obj [("main", Str "<add-your-namespace-here>/core");
                    ("dependencies", Obj (versions found))])).
Proof.
  apply (init_writes_the_section exampleMaven exampleClojars inBatchOrder releasesWritten
           (State (Some [("name", Str "demo");
                         ("cljsbuild", Obj [("main", Str "demo/core")])])
                  None [])
           [("name", Str "demo"); ("cljsbuild", Obj [("main", Str "demo/core")])]).
  - reflexivity.
  - reflexivity.
  - reflexivity.
  - reflexivity.
Defined.

(** X23.  Without a package.json, and with no settings loaded before, every
    entry point of the class ends the process with code 1 after the one
    line that says so; no registry is asked. *)
Theorem missing_package_json_ends_the_process
        (mavenDocs : string -> string -> list MavenDoc)
        (clojarsResults : string -> string -> list ClojarsItem)
        (arrival : list (list event) -> list event)
        (opts : options) (key : string) (address : list string) (x : value)
        (out : list output) :
  let s := State None None out in
  let ended := State None None (out ++ [Error "package.json does not exist"]) in
  getConfig key s = (Exited 1, ended) /\
  _updatePackageJson address x s = (Exited 1, ended) /\
  initConfig mavenDocs clojarsResults arrival opts s = (Exited 1, ended) /\
  updateDependencies mavenDocs clojarsResults arrival opts s = (Exited 1, ended).
Proof.
  cbv zeta. repeat split; reflexivity.
Qed.

End ConfigFacts.
